(** * The command-line helper bot: a shallow embedding of [source/cli_bot.py]

    The development follows the layout of the program.  [Py] holds the few
    built-ins of the language the dispatcher leans on ([str.split],
    [str.casefold], [str.join], [int], [sorted]).  [Exn] is the exception
    model with the decorator [input_error] on outcomes.  [Calendar], [Rec],
    [Note], [AddressBook] and [NotesBook] stand for the module
    [source.datamodels], which the dispatcher imports; the module
    [CliHelperBot] is the class of the same name, handler by handler, written
    in a monad of state and exceptions.  The theorems come last. *)

From Stdlib Require Import ZArith List String Ascii Bool Lia DecimalString.
Import ListNotations.

Open Scope string_scope.

(** ** Built-ins of the host language *)

Module Py.

(** Characters are 8-bit; the model covers ASCII text.  A character above
    127 is neither a space nor a digit here and is left alone by
    [casefold]. *)

(** [str.isspace] on one ASCII character: tab, line feed, vertical tab,
    form feed, carriage return, the four separators 28..31 and the blank. *)
Definition is_space (c : ascii) : bool :=
  let n := nat_of_ascii c in
  ((9 <=? n) && (n <=? 13) || (28 <=? n) && (n <=? 31) || (n =? 32))%nat.

(** [str.split()] with no separator: maximal runs of non-space characters.
    [word] is the run being read. *)
Fixpoint split_from (word s : string) : list string :=
  match s with
  | EmptyString => if (word =? "")%string then [] else [word]
  | String c rest =>
      if is_space c
      then (if (word =? "")%string then split_from "" rest
            else word :: split_from "" rest)
      else split_from (word ++ String c "") rest
  end.

Definition split (s : string) : list string := split_from "" s.

(** [sep.join(xs)] *)
Definition join (sep : string) (xs : list string) : string :=
  String.concat sep xs.

Definition lower_ascii (c : ascii) : ascii :=
  let n := nat_of_ascii c in
  if ((65 <=? n) && (n <=? 90))%nat then ascii_of_nat (n + 32) else c.

(** [str.casefold()] (and [str.lower()]) on ASCII text. *)
Fixpoint casefold (s : string) : string :=
  match s with
  | EmptyString => EmptyString
  | String c rest => String (lower_ascii c) (casefold rest)
  end.

(** [needle in hay] for strings. *)
Fixpoint contains (needle hay : string) : bool :=
  String.prefix needle hay
  || match hay with
     | EmptyString => false
     | String _ rest => contains needle rest
     end.

(** [str(n)] for a length. *)
Definition str_nat (n : nat) : string :=
  NilEmpty.string_of_uint (Nat.to_uint n).

(** The characters [int] drops around a literal: tab, line feed, vertical
    tab, form feed, carriage return and the blank.  The separators 28..31,
    which [str.split] takes for spaces, are not among them. *)
Definition is_int_space (c : ascii) : bool :=
  let n := nat_of_ascii c in
  ((9 <=? n) && (n <=? 13) || (n =? 32))%nat.

Fixpoint int_lstrip (s : string) : string :=
  match s with
  | String c rest => if is_int_space c then int_lstrip rest else s
  | EmptyString => EmptyString
  end.

Fixpoint rev (s : string) : string :=
  match s with
  | EmptyString => EmptyString
  | String c rest => rev rest ++ String c ""
  end.

Definition int_strip (s : string) : string :=
  rev (int_lstrip (rev (int_lstrip s))).

(** A string with no character but spaces, the empty string included. *)
Fixpoint blank (s : string) : bool :=
  match s with
  | EmptyString => true
  | String c rest => is_space c && blank rest
  end.

Definition digit_val (c : ascii) : option Z :=
  let n := nat_of_ascii c in
  if ((48 <=? n) && (n <=? 57))%nat then Some (Z.of_nat (n - 48)) else None.

(** The digit part of an integer literal accepted by [int]: decimal digits,
    single underscores allowed between two digits.  [after_digit] tells
    whether the previous character was a digit. *)
Fixpoint digits (acc : Z) (after_digit : bool) (s : string) : option Z :=
  match s with
  | EmptyString => if after_digit then Some acc else None
  | String c rest =>
      match digit_val c with
      | Some d => digits (10 * acc + d)%Z true rest
      | None =>
          if (Ascii.eqb c "_" && after_digit)%bool
          then digits acc false rest
          else None
      end
  end.

(** The number of decimal digits in a string. *)
Fixpoint count_digits (s : string) : nat :=
  match s with
  | EmptyString => 0
  | String c rest =>
      match digit_val c with
      | Some _ => S (count_digits rest)
      | None => count_digits rest
      end
  end.

(** The most digits [int] converts, [sys.get_int_max_str_digits()] as the
    interpreter sets it when nothing else is asked for. *)
Definition int_max_str_digits : nat := 4300.

(** The literal after the sign: refused when it has more digits than the
    limit (underscores do not count, leading zeros do). *)
Definition literal (s : string) : option Z :=
  if (int_max_str_digits <? count_digits s)%nat then None
  else digits 0%Z false s.

(** [int(s)] in base ten: the blanks [is_int_space] around the text are
    dropped, one sign is allowed.  [None] is the [ValueError] of the
    built-in. *)
Definition int (s : string) : option Z :=
  match int_strip s with
  | String "-" rest => option_map Z.opp (literal rest)
  | String "+" rest => literal rest
  | t => literal t
  end.

(** [sorted(xs)] on strings, by insertion; the order is that of the
    character codes. *)
Fixpoint insert_sorted (x : string) (xs : list string) : list string :=
  match xs with
  | [] => [x]
  | y :: ys => if String.leb x y then x :: xs else y :: insert_sorted x ys
  end.

Definition sorted (xs : list string) : list string :=
  fold_right insert_sorted [] xs.

(** The line feed, written [\n] in the source. *)
Definition nl : string := String (ascii_of_nat 10) "".

End Py.

(** ** Exceptions *)

Module Exn.

(** The exception classes that occur in the dispatcher.  The first three
    are declared in the file itself, the others are built in: [IndexError]
    comes from indexing a list, [TypeError] from calling a method with the
    wrong number of arguments. *)
Inductive cls : Type :=
| CommandNotSupported
| CliHelperSigStop
| CommandOperationalError
| ValueError
| KeyError
| IndexError
| TypeError.

(** An exception: its class and [str(e)]. *)
Record t : Type := Build { class_of : cls; str : string }.

(** What a call yields: a value, or a raised exception. *)
Inductive result (A : Type) : Type :=
| Return (a : A)
| Raise (e : t).
Arguments Return {A} a.
Arguments Raise {A} e.

(** The [except] clause of [input_error] lists four classes. *)
Definition caught (c : cls) : bool :=
  match c with
  | CommandOperationalError | CommandNotSupported | ValueError | KeyError => true
  | CliHelperSigStop | IndexError | TypeError => false
  end.

(** [input_error(error_msg_base)] applied to the outcome of the decorated
    call. *)
Definition input_error_result (error_msg_base : string) (r : result string)
  : result string :=
  match r with
  | Return s => Return s
  | Raise e =>
      if caught (class_of e)
      then Return (error_msg_base ++ ": " ++ str e)
      else Raise e
  end.

End Exn.

(** ** The calendar

    The dispatcher imports its data model from [source.datamodels].  The
    modules from here to [NotesBook] stand for it. *)

Module Calendar.

Open Scope Z_scope.

(** Modelled from the spec: the module [source.datamodels] is not part of
    the sources at hand; a birthday is "a calendar date (no time
    component)".  A date is a year, a month and a day of the proleptic
    Gregorian calendar. *)
Record date : Type := mkdate { year : Z; month : Z; day : Z }.

Definition date_eqb (a b : date) : bool :=
  (year a =? year b) && (month a =? month b) && (day a =? day b).

Definition is_leap (y : Z) : bool :=
  (y mod 4 =? 0) && (negb (y mod 100 =? 0) || (y mod 400 =? 0)).

Definition days_in_month (y m : Z) : Z :=
  match m with
  | 1 | 3 | 5 | 7 | 8 | 10 | 12 => 31
  | 4 | 6 | 9 | 11 => 30
  | 2 => if is_leap y then 29 else 28
  | _ => 0
  end.

(** Modelled from the spec: [parse_date] rejects "out-of-range components
    (e.g. month 13, day 32, non-leap Feb 29)"; this is the range check. *)
Definition valid (d : date) : bool :=
  (1 <=? year d) && (1 <=? month d) && (month d <=? 12)
  && (1 <=? day d) && (day d <=? days_in_month (year d) (month d)).

(** Days before 1 January of year [y], counted from 1 January of year 1. *)
Definition days_before_year (y : Z) : Z :=
  let p := y - 1 in p * 365 + p / 4 - p / 100 + p / 400.

(** Days of year [y] before the first day of month [m]. *)
Definition days_before_month (y m : Z) : Z :=
  match m with
  | 1 => 0
  | 2 => 31
  | 3 => 59
  | 4 => 90
  | 5 => 120
  | 6 => 151
  | 7 => 181
  | 8 => 212
  | 9 => 243
  | 10 => 273
  | 11 => 304
  | _ => 334
  end + (if (3 <=? m) && is_leap y then 1 else 0).

(** The day number of a date; 1 January of year 1 is day 1. *)
Definition toordinal (d : date) : Z :=
  days_before_year (year d) + days_before_month (year d) (month d) + day d.

(** Monday is 0, Saturday 5, Sunday 6. *)
Definition weekday (d : date) : Z := (toordinal d + 6) mod 7.

(** The day after [d]. *)
Definition next_day (d : date) : date :=
  if day d <? days_in_month (year d) (month d)
  then mkdate (year d) (month d) (day d + 1)
  else if month d <? 12
       then mkdate (year d) (month d + 1) 1
       else mkdate (year d + 1) 1 1.

(** The month and day of [b] in year [y], when that day exists. *)
Definition replace_year (y : Z) (b : date) : option date :=
  let d := mkdate y (month b) (day b) in
  if valid d then Some d else None.

(** Modelled from the spec: "this year's (or, if already passed, next
    year's) occurrence of month/day".  The spec does not say what a
    29 February does in a common year; here it has no occurrence in that
    year, so the next year is looked at, and there is none at all when that
    year is common too. *)
Definition occurrence (today b : date) : option date :=
  match replace_year (year today) b with
  | Some d =>
      if toordinal today <=? toordinal d then Some d
      else replace_year (year today + 1) b
  | None => replace_year (year today + 1) b
  end.

(** Modelled from the spec: "if the occurrence falls on a Saturday or
    Sunday, shift it forward to the following Monday; weekday occurrences
    are unchanged". *)
Definition congratulation_date (occ : date) : date :=
  if weekday occ =? 5 then next_day (next_day occ)
  else if weekday occ =? 6 then next_day occ
  else occ.

(** Modelled from the spec: the "inclusive window [today, today + n
    days]". *)
Definition in_window (today : date) (n : Z) (occ : date) : bool :=
  (toordinal today <=? toordinal occ) && (toordinal occ <=? toordinal today + n).

End Calendar.

(** ** One contact *)

Module Rec.

(** Modelled from the spec: the class [Record] of [source.datamodels],
    "one contact's stored fields (name, phones, optional
    birthday/email/address)".  A phone is kept by its [value]. *)
Record t : Type := mk {
  name : string;
  phones : list string;
  birthday : option Calendar.date;
  email : option string;
  address : option string
}.

(** What a method that can fail yields: the text of the error, or the
    record after the call. *)
Inductive failure : Type :=
| ValidationError (msg : string)
| NotFoundError (msg : string).

Section Methods.

(** The validators of [source.datamodels]; [inl] carries the text of the
    validation error.  Their grammars are a contract of the missing
    module and stay parameters. *)
Variable validate_phone : string -> string + string.
Variable validate_email : string -> string + string.
Variable parse_date : string -> string + Calendar.date.
(** The text of the error raised for an empty address, and for a phone
    that is not among the phones. *)
Variable address_empty : string.
Variable phone_not_found : string -> string.

(** Modelled from the spec: [Record(name_=..., phones=[...])]; the phones
    are "validated phone values". *)
Fixpoint validate_phones (ps : list string) : string + list string :=
  match ps with
  | [] => inr []
  | p :: rest =>
      match validate_phone p with
      | inl msg => inl msg
      | inr v =>
          match validate_phones rest with
          | inl msg => inl msg
          | inr vs => inr (v :: vs)
          end
      end
  end.

Definition create (name_ : string) (phones_ : list string) : failure + t :=
  match validate_phones phones_ with
  | inl msg => inl (ValidationError msg)
  | inr vs => inr (mk name_ vs None None None)
  end.

(** Modelled from the spec: "parses via parse_date; overwrites any
    existing birthday; fails with ValidationError on bad format". *)
Definition add_birthday (r : t) (date_str : string) : failure + t :=
  match parse_date date_str with
  | inl msg => inl (ValidationError msg)
  | inr d => inr (mk (name r) (phones r) (Some d) (email r) (address r))
  end.

(** Modelled from the spec: "clears birthday; no error if already
    absent". *)
Definition remove_birthday (r : t) : t :=
  mk (name r) (phones r) None (email r) (address r).

(** Modelled from the spec: "same contract as add_birthday (alias)". *)
Definition update_birthday (r : t) (date_str : string) : failure + t :=
  add_birthday r date_str.

(** Modelled from the spec: "validates, overwrites". *)
Definition add_email (r : t) (email_str : string) : failure + t :=
  match validate_email email_str with
  | inl msg => inl (ValidationError msg)
  | inr e => inr (mk (name r) (phones r) (birthday r) (Some e) (address r))
  end.

Definition update_email (r : t) (email_str : string) : failure + t :=
  add_email r email_str.

(** Modelled from the spec: "remove_email() clears, idempotent". *)
Definition remove_email (r : t) : t :=
  mk (name r) (phones r) (birthday r) None (address r).

(** Modelled from the spec: "free-text, no validation beyond
    non-empty". *)
Definition add_address (r : t) (address_str : string) : failure + t :=
  if (address_str =? "")%string then inl (ValidationError address_empty)
  else inr (mk (name r) (phones r) (birthday r) (email r) (Some address_str)).

Definition update_address (r : t) (address_str : string) : failure + t :=
  add_address r address_str.

(** Modelled from the spec: "remove_address() idempotent clear". *)
Definition remove_address (r : t) : t :=
  mk (name r) (phones r) (birthday r) (email r) None.

Definition has_phone (value : string) (ps : list string) : bool :=
  existsb (String.eqb value) ps.


(** The first phone equal to [old_value] becomes [new_value]. *)
Fixpoint replace_first (old_value new_value : string) (ps : list string)
  : list string :=
  match ps with
  | [] => []
  | p :: rest =>
      if (p =? old_value)%string then new_value :: rest
      else p :: replace_first old_value new_value rest
  end.

(** The first phone equal to [value] goes. *)
Fixpoint remove_first (value : string) (ps : list string) : list string :=
  match ps with
  | [] => []
  | p :: rest =>
      if (p =? value)%string then rest else p :: remove_first value rest
  end.

(** Modelled from the spec: "fails with NotFoundError if old_value is not
    among phones; validates new_value; replaces in place preserving
    position". *)
Definition edit_phone (r : t) (old_value new_value : string) : failure + t :=
  if has_phone old_value (phones r)
  then match validate_phone new_value with
       | inl msg => inl (ValidationError msg)
       | inr v =>
           inr (mk (name r) (replace_first old_value v (phones r))
                   (birthday r) (email r) (address r))
       end
  else inl (NotFoundError (phone_not_found old_value)).

(** Modelled from the spec: "fails with NotFoundError if value absent;
    removes first match". *)
Definition remove_phone (r : t) (value : string) : failure + t :=
  if has_phone value (phones r)
  then inr (mk (name r) (remove_first value (phones r))
               (birthday r) (email r) (address r))
  else inl (NotFoundError (phone_not_found value)).

End Methods.

End Rec.

(** ** One note *)

Module Note.

(** Modelled from the spec: the class [Note] of [source.datamodels], "one
    stored note's fields (name, project role, task text, hobbies)". *)
Record t : Type := mk {
  name : string;
  project_role : string;
  project_tasks : string;
  hobbies : list string
}.

(** Modelled from the spec: [Note(name_=..., project_role=...)]; the tasks
    and the hobbies are "empty initially". *)
Definition create (name_ project_role_ : string) : t :=
  mk name_ project_role_ "" [].

(** Modelled from the spec: "appends text to project_tasks, separated by a
    single space if prior content exists". *)
Definition add_project_tasks (n : t) (text : string) : t :=
  mk (name n) (project_role n)
     (if (project_tasks n =? "")%string then text
      else project_tasks n ++ " " ++ text)
     (hobbies n).

(** Modelled from the spec: "appends text to hobbies as one new entry". *)
Definition add_hobby (n : t) (text : string) : t :=
  mk (name n) (project_role n) (project_tasks n) (hobbies n ++ [text])%list.

(** Modelled from the spec: "fails with NotFoundError if hobby not present
    in hobbies; replaces the first exact match with new_hobby".  [None] is
    the error. *)
Definition edit_hobby (n : t) (hobby new_hobby : string) : option t :=
  if existsb (String.eqb hobby) (hobbies n)
  then Some (mk (name n) (project_role n) (project_tasks n)
                (Rec.replace_first hobby new_hobby (hobbies n)))
  else None.

End Note.

(** ** The address book *)

Module AddressBook.

(** Modelled from the spec: the class [AddressBook] of
    [source.datamodels], a "mapping from contact name to Record, keys
    unique", the insertion order being kept for listing.  It is a list of
    bindings in insertion order. *)
Definition t : Type := list (string * Rec.t).

(** Modelled from the spec: [find(name)], which "fails with NotFoundError if
    no such key"; [None] is the error. *)
Fixpoint find (book : t) (name_ : string) : option Rec.t :=
  match book with
  | [] => None
  | (k, r) :: rest => if (k =? name_)%string then Some r else find rest name_
  end.

(** Modelled from the spec: "if a record with the same name already exists,
    returns None (no mutation, no exception) ...; otherwise inserts and
    returns the stored record".  The result is the returned value and the
    book after the call. *)
Definition add_record (book : t) (record : Rec.t) : option Rec.t * t :=
  match find book (Rec.name record) with
  | Some _ => (None, book)
  | None => (Some record, (book ++ [(Rec.name record, record)])%list)
  end.

Fixpoint remove_key (book : t) (name_ : string) : t :=
  match book with
  | [] => []
  | (k, r) :: rest =>
      if (k =? name_)%string then rest else (k, r) :: remove_key rest name_
  end.

(** Modelled from the spec: [delete(name)] "fails with NotFoundError if
    absent; else removes". *)
Definition delete (book : t) (name_ : string) : option t :=
  match find book name_ with
  | Some _ => Some (remove_key book name_)
  | None => None
  end.

(** A record is an object shared by the book and by the handler that looked
    it up: a method called on it changes the book's entry.  [store] writes
    the record back under its key, in place. *)
Fixpoint store (book : t) (name_ : string) (r' : Rec.t) : t :=
  match book with
  | [] => []
  | (k, r) :: rest =>
      if (k =? name_)%string then (k, r') :: rest
      else (k, r) :: store rest name_ r'
  end.

Definition values (book : t) : list Rec.t := map snd book.

(** Modelled from the spec: "all keys, in insertion order". *)
Definition get_all_names (book : t) : list string := map fst book.


(** Modelled from the spec: "case-insensitive substring match across each
    record's textual representation ...; returns all matches in collection
    order".  [str_record] is the rendering of a record. *)
Definition search (str_record : Rec.t -> string) (book : t) (query : string)
  : list Rec.t :=
  filter (fun r => Py.contains (Py.casefold query) (Py.casefold (str_record r)))
         (values book).

(** The groups of the birthday report: congratulation date and records. *)
Definition groups : Type := list (Calendar.date * list Rec.t).

(** [r] is in the group of [key]. *)
Definition listed (key : Calendar.date) (r : Rec.t) (gs : groups) : Prop :=
  exists rs, In (key, rs) gs /\ In r rs.

(** Appends [r] to the group of [key], opening the group when it is new. *)
Fixpoint add_to_group (key : Calendar.date) (r : Rec.t) (gs : groups) : groups :=
  match gs with
  | [] => [(key, [r])]
  | (k, rs) :: rest =>
      if Calendar.date_eqb k key then (k, (rs ++ [r])%list) :: rest
      else (k, rs) :: add_to_group key r rest
  end.

(** The congratulation date of a record, when it has a birthday whose
    occurrence lies in the window. *)
Definition congratulate (today : Calendar.date) (n : Z) (r : Rec.t)
  : option Calendar.date :=
  match Rec.birthday r with
  | None => None
  | Some b =>
      match Calendar.occurrence today b with
      | None => None
      | Some occ =>
          if Calendar.in_window today n occ
          then Some (Calendar.congratulation_date occ)
          else None
      end
  end.

(** One turn of the loop over the records. *)
Definition visit (today : Calendar.date) (n : Z) (gs : groups) (r : Rec.t)
  : groups :=
  match congratulate today n r with
  | Some key => add_to_group key r gs
  | None => gs
  end.

Fixpoint insert_group (g : Calendar.date * list Rec.t) (gs : groups) : groups :=
  match gs with
  | [] => [g]
  | h :: rest =>
      if (Calendar.toordinal (fst g) <=? Calendar.toordinal (fst h))%Z
      then g :: gs
      else h :: insert_group g rest
  end.

(** "order the groups by date ascending" *)
Definition sort_groups (gs : groups) : groups := fold_right insert_group [] gs.

(** Modelled from the spec: [get_birthdays_per_days(n)]: "for each record
    with a birthday set, compute this year's (or, if already passed, next
    year's) occurrence of month/day; keep it only if that occurrence falls
    within the inclusive window [today, today + n days]. ... Group
    qualifying records by congratulation date, preserving each group's
    insertion order; order the groups by date ascending."  [today] is the
    date of the system clock. *)
Definition get_birthdays_per_days (today : Calendar.date) (book : t) (n : Z)
  : groups :=
  sort_groups (fold_left (visit today n) (values book) []).

End AddressBook.

(** ** The notes book *)

Module NotesBook.

(** Modelled from the spec: the class [NotesBook] of [source.datamodels], a
    "mapping from note name to Note, same uniqueness rule". *)
Definition t : Type := list (string * Note.t).

(** Modelled from the spec: [find(name)] "fails with NotFoundError if
    absent". *)
Fixpoint find (book : t) (name_ : string) : option Note.t :=
  match book with
  | [] => None
  | (k, n) :: rest => if (k =? name_)%string then Some n else find rest name_
  end.

(** Modelled from the spec: "same already-exists sentinel pattern as
    add_record". *)
Definition add_note (book : t) (note : Note.t) : option Note.t * t :=
  match find book (Note.name note) with
  | Some _ => (None, book)
  | None => (Some note, (book ++ [(Note.name note, note)])%list)
  end.

Fixpoint remove_key (book : t) (name_ : string) : t :=
  match book with
  | [] => []
  | (k, n) :: rest =>
      if (k =? name_)%string then rest else (k, n) :: remove_key rest name_
  end.

(** Modelled from the spec: [delete(name)] "fails with NotFoundError if
    absent". *)
Definition delete (book : t) (name_ : string) : option t :=
  match find book name_ with
  | Some _ => Some (remove_key book name_)
  | None => None
  end.

(** The write-back of a note changed through a method, as
    [AddressBook.store]. *)
Fixpoint store (book : t) (name_ : string) (n' : Note.t) : t :=
  match book with
  | [] => []
  | (k, n) :: rest =>
      if (k =? name_)%string then (k, n') :: rest
      else (k, n) :: store rest name_ n'
  end.

(** Modelled from the spec: "all notes in insertion order". *)
Definition values (book : t) : list Note.t := map snd book.

(** Modelled from the spec: "all notes whose project_role matches role
    (exact match, case-sensitive ...)". *)
Definition find_project_role (book : t) (project_role_ : string) : list Note.t :=
  filter (fun n => (Note.project_role n =? project_role_)%string) (values book).

(** Modelled from the spec: "all notes where hobby appears (exact match)
    within that note's hobbies". *)
Definition find_hobby (book : t) (hobby_ : string) : list Note.t :=
  filter (fun n => existsb (String.eqb hobby_) (Note.hobbies n)) (values book).

End NotesBook.

(** ** What the dispatcher takes from the data model without showing it *)

(** The grammars of the validators, the renderings of records, notes and
    dates, and the texts of the errors raised inside [source.datamodels] are
    not to be seen from the dispatcher; they are collected here.  A validator
    answers [inl msg] for the validation error with text [msg]. *)
Class Datamodels : Type := {
  validate_phone : string -> string + string;
  validate_email : string -> string + string;
  parse_date : string -> string + Calendar.date;
  address_empty : string;
  phone_not_found : string -> string;
  hobby_not_found : string -> string;
  key_not_found : string -> string;
  str_record : Rec.t -> string;
  str_note : Note.t -> string;
  str_date : Calendar.date -> string
}.

(** ** The dispatcher *)

Module CliHelperBot.

Import Exn.

(** The two books the bot holds. *)
Record bot : Type := mk {
  address_book : AddressBook.t;
  notes_book : NotesBook.t
}.

(** A handler runs on the bot, may change its books, and returns or
    raises. *)
Definition M (A : Type) : Type := bot -> result A * bot.

Definition ret {A : Type} (a : A) : M A := fun b => (Return a, b).

Definition raise {A : Type} (c : cls) (msg : string) : M A :=
  fun b => (Raise (Build c msg), b).

Definition bind {A B : Type} (m : M A) (k : A -> M B) : M B :=
  fun b =>
    match m b with
    | (Return a, b') => k a b'
    | (Raise e, b') => (Raise e, b')
    end.

Notation "x <- m ;; k" := (bind m (fun x => k))
  (at level 61, m at next level, right associativity).
Notation "m ;;; k" := (bind m (fun _ => k))
  (at level 61, right associativity).


(** The decorator [input_error]. *)
Definition input_error (error_msg_base : string) (func : M string) : M string :=
  fun b => let (r, b') := func b in (input_error_result error_msg_base r, b').

(** A function object: what a call does, and its [__doc__]. *)
Record command : Type := def { call : list string -> M string; doc : string }.

(** A docstring up to its [Returns:] part, stripped: the summary line, an
    empty line and the [Args:] block with the indentation of the source. *)
Definition docstring (summary argument : string) : string :=
  summary ++ Py.nl ++ Py.nl ++ "        Args:" ++ Py.nl
  ++ "            " ++ argument.

Definition received (args : list string) : string :=
  "Received: " ++ Py.join " " args.

Section Handlers.

Context {D : Datamodels}.

(** The date the system clock gives to [get_birthdays_per_days]. *)
Variable today : Calendar.date.

(** An error of a method of [Rec] as the exception the dispatcher sees: a
    validation error is a [ValueError], a failed lookup a [KeyError]. *)
Definition as_exception (f : Rec.failure) : Exn.t :=
  match f with
  | Rec.ValidationError msg => Build ValueError msg
  | Rec.NotFoundError msg => Build KeyError msg
  end.

(** [try: record = self._address_book.find(username)] with the
    [except KeyError] clause raising [CommandOperationalError(msg)]. *)
Definition find_contact (username msg : string) : M Rec.t :=
  fun b =>
    match AddressBook.find (address_book b) username with
    | Some record => (Return record, b)
    | None => (Raise (Build CommandOperationalError msg), b)
    end.

(** The outcome of a method called on the record found under [username]:
    the exception, or the changed record seen through the book. *)
Definition on_contact (username : string) (outcome : Rec.failure + Rec.t)
  : M unit :=
  fun b =>
    match outcome with
    | inl f => (Raise (as_exception f), b)
    | inr record' =>
        (Return tt,
         mk (AddressBook.store (address_book b) username record')
            (notes_book b))
    end.

Definition find_note_or (name_ msg : string) : M Note.t :=
  fun b =>
    match NotesBook.find (notes_book b) name_ with
    | Some note => (Return note, b)
    | None => (Raise (Build CommandOperationalError msg), b)
    end.

Definition on_note (name_ : string) (note' : Note.t) : M unit :=
  fun b =>
    (Return tt,
     mk (address_book b) (NotesBook.store (notes_book b) name_ note')).

(** [stop]: called with anything but one argument the call itself fails. *)
Definition stop (args : list string) : M string :=
  match args with
  | [message] => raise CliHelperSigStop message
  | [] =>
      raise TypeError
        "CliHelperBot.stop() missing 1 required positional argument: 'message'"
  | _ =>
      raise TypeError
        ("CliHelperBot.stop() takes 2 positional arguments but "
         ++ Py.str_nat (S (List.length args)) ++ " were given")
  end.

Definition say_hello (args : list string) : M string :=
  let command_output :=
    match args with
    | [] => ""
    | _ => "Warning: Command doesn't expect any arguments. "
           ++ received args ++ Py.nl
    end in
  ret (command_output ++ "How can I help you?").

Definition add_birthday (args : list string) : M string :=
  input_error "Command 'add-birthday' failed"
    match args with
    | [username; date_str] =>
        record <- find_contact username
          ("user with username " ++ username ++ " doesn't exist. "
           ++ "If you want to add number, please use 'add' command.") ;;
        on_contact username (Rec.add_birthday parse_date record date_str) ;;;
        ret ("Contact " ++ username ++ " updated with date: " ++ date_str ++ ".")
    | _ =>
        raise CommandOperationalError
          ("command expects an input of two arguments: username and date, separated by a space. "
           ++ received args)
    end.

Definition add_contact (args : list string) : M string :=
  input_error "Command 'add' failed"
    match args with
    | [username; phone] =>
        fun b =>
          match Rec.create validate_phone username [phone] with
          | inl f => (Raise (as_exception f), b)
          | inr fresh =>
              match AddressBook.add_record (address_book b) fresh with
              | (None, book') =>
                  (Raise (Build CommandOperationalError
                            ("user with username " ++ username ++ " already exist. "
                             ++ "If you want to update number, please use 'change' command.")),
                   mk book' (notes_book b))
              | (Some _, book') =>
                  (Return ("Contact " ++ username ++ " created with phone: "
                           ++ phone ++ "."),
                   mk book' (notes_book b))
              end
          end
    | _ =>
        raise CommandOperationalError
          ("command expects an input of two arguments: username and phone, separated by a space. "
           ++ received args)
    end.

Definition change_contact (args : list string) : M string :=
  input_error "Command 'update' failed"
    match args with
    | [username; phone] =>
        record <- find_contact username
          ("user with username " ++ username ++ " doesn't exist. "
           ++ "If you want to add number, please use 'add' command.") ;;
        match Rec.phones record with
        | [] => raise IndexError "list index out of range"
        | first :: _ =>
            on_contact username
              (Rec.edit_phone validate_phone phone_not_found record first phone) ;;;
            ret ("Contact " ++ username ++ " updated with phone: " ++ phone ++ ".")
        end
    | _ =>
        raise CommandOperationalError
          ("command expects an input of two arguments: username and phone, separated by a space. "
           ++ received args)
    end.

(** [f"{record.birthday}"]: an absent birthday is [None]. *)
Definition str_birthday (b : option Calendar.date) : string :=
  match b with
  | Some d => str_date d
  | None => "None"
  end.

Definition show_birthday (args : list string) : M string :=
  input_error "Command 'show-birthday' failed"
    match args with
    | [username] =>
        record <- find_contact username
          ("user with username " ++ username
           ++ " doesn't exist. Try another username.") ;;
        ret ("User's " ++ username ++ " birthday is: "
             ++ str_birthday (Rec.birthday record))
    | _ =>
        raise CommandOperationalError
          ("command expects an input of one argument: username. "
           ++ received args)
    end.

(** [command_output += f"\n{x}"] for every [x]. *)
Definition lines {A : Type} (str : A -> string) (xs : list A) : string :=
  fold_left (fun out x => out ++ Py.nl ++ str x) xs "".

Definition search_contact (args : list string) : M string :=
  input_error "Command 'search' failed"
    match args with
    | [query] =>
        fun b =>
          match AddressBook.search str_record (address_book b) query with
          | [] => (Return "No records found with provided query.", b)
          | records => (Return ("Found Records: " ++ lines str_record records), b)
          end
    | _ =>
        raise CommandOperationalError
          ("command expects an input of one argument: search query. "
           ++ received args)
    end.

Definition get_contact (args : list string) : M string :=
  input_error "Command 'phone' failed"
    match args with
    | [username] =>
        record <- find_contact username
          ("user with username " ++ username
           ++ " doesn't exist. Try another username.") ;;
        ret ("Record found: " ++ Py.nl ++ str_record record)
    | _ =>
        raise CommandOperationalError
          ("command expects an input of one argument: username. "
           ++ received args)
    end.

Definition birthday_group (g : Calendar.date * list Rec.t) : string :=
  Py.nl ++ "Have BD on " ++ str_date (fst g) ++ ":" ++ Py.nl ++ " "
  ++ ("| " ++ Py.join (Py.nl ++ " | ") (map str_record (snd g))).

(** The body of [birthdays] from the argument check to the report, the
    core operation being [core]. *)
Definition birthdays_with (core : Z -> AddressBook.groups)
           (args : list string) : result string :=
  match args with
  | [days_str] =>
      match Py.int days_str with
      | None =>
          Raise (Build CommandOperationalError
            "Command expects a valid integer - number of days, please recheck your input.")
      | Some days =>
          match core days with
          | [] => Return "No contacts found"
          | results =>
              Return ("Contacts per day: "
                      ++ fold_left (fun out g => out ++ birthday_group g) results "")
          end
      end
  | _ =>
      Raise (Build CommandOperationalError
        ("Warning: Command expect one argument: number of days. "
         ++ received args ++ Py.nl))
  end.

Definition birthdays (args : list string) : M string :=
  input_error "Command 'birthdays' failed"
    (fun b =>
       (birthdays_with
          (AddressBook.get_birthdays_per_days today (address_book b)) args,
        b)).

Definition print_all_contacts (args : list string) : M string :=
  fun b =>
    let command_output :=
      match args with
      | [] => ""
      | _ => "Warning: Command doesn't expect any arguments. "
             ++ received args ++ Py.nl
      end in
    (Return (command_output ++ "All Records: "
             ++ lines str_record (AddressBook.values (address_book b))),
     b).

Definition add_address (args : list string) : M string :=
  input_error "Command 'add-address' failed"
    match args with
    | [username; address_str] =>
        record <- find_contact username
          ("user with username " ++ username ++ " doesn't exist. "
           ++ "If you want to add address, please use 'add-address' command.") ;;
        on_contact username (Rec.add_address address_empty record address_str) ;;;
        ret ("Contact " ++ username ++ " updated with address: "
             ++ address_str ++ ".")
    | _ =>
        raise CommandOperationalError
          ("command expects an input of two arguments: username and address, separated by a space. "
           ++ received args)
    end.

Definition add_email (args : list string) : M string :=
  input_error "Command 'add-email' failed"
    match args with
    | [username; email_str] =>
        record <- find_contact username
          ("user with username " ++ username ++ " doesn't exist. "
           ++ "If you want to add email, please use 'add-email' command.") ;;
        on_contact username (Rec.add_email validate_email record email_str) ;;;
        ret ("Contact " ++ username ++ " updated with email: " ++ email_str ++ ".")
    | _ =>
        raise CommandOperationalError
          ("command expects an input of two arguments: username and email, separated by a space. "
           ++ received args)
    end.

Definition add_note (args : list string) : M string :=
  input_error "Command 'add-note' failed"
    match args with
    | [name_; project_role] =>
        fun b =>
          match NotesBook.add_note (notes_book b) (Note.create name_ project_role) with
          | (None, book') =>
              (Raise (Build CommandOperationalError
                        ("Note " ++ name_ ++ " already exist. "
                         ++ "If you want to update project role, please use 'change-project-role' command.")),
               mk (address_book b) book')
          | (Some _, book') =>
              (Return ("Created note " ++ name_ ++ " " ++ project_role ++ "."),
               mk (address_book b) book')
          end
    | _ =>
        raise CommandOperationalError
          ("command expects an input of two arguments: name and project role, separated by a space. "
           ++ received args)
    end.

Definition delete_note (args : list string) : M string :=
  input_error "Command 'delete-note' failed"
    match args with
    | [name_] =>
        fun b =>
          match NotesBook.delete (notes_book b) name_ with
          | None =>
              (Raise (Build CommandOperationalError
                        ("Note with name " ++ name_ ++ " doesn't exist. ")),
               b)
          | Some book' =>
              (Return ("Note " ++ name_ ++ " removed from Notes book."),
               mk (address_book b) book')
          end
    | _ =>
        raise CommandOperationalError
          ("command expects an input of one argument: note name. "
           ++ received args)
    end.

(** The guard is [len(args) <= 2]: the name and at least two more words. *)
Definition add_project_tasks (args : list string) : M string :=
  input_error "Command 'add-project-tasks' failed"
    match args with
    | name_ :: ((_ :: _ :: _) as project_tasks) =>
        let tasks_str := Py.join " " project_tasks in
        note <- find_note_or name_
          ("note with name " ++ name_ ++ " doesn't exist. ") ;;
        on_note name_ (Note.add_project_tasks note tasks_str) ;;;
        ret ("Note " ++ name_ ++ " updated")
    | _ =>
        raise CommandOperationalError
          ("command expects an input of two arguments: name and project tasks string, separated by a space. "
           ++ received args)
    end.

(** The lookup is not guarded here: its [KeyError] goes to the
    decorator. *)
Definition find_note (args : list string) : M string :=
  input_error "Command 'find-note' failed"
    match args with
    | [name_] =>
        fun b =>
          match NotesBook.find (notes_book b) name_ with
          | None => (Raise (Build KeyError (key_not_found name_)), b)
          | Some note => (Return ("Found note: " ++ str_note note), b)
          end
    | _ =>
        raise CommandOperationalError
          ("command expects an input of one argument: name string."
           ++ "Received: " ++ Py.str_nat (List.length args))
    end.

Definition find_project_role (args : list string) : M string :=
  input_error "Command 'find-project-role' failed"
    match args with
    | [project_role] =>
        fun b =>
          (Return ("Found Notes: "
                   ++ lines str_note
                        (NotesBook.find_project_role (notes_book b) project_role)),
           b)
    | _ =>
        raise CommandOperationalError
          ("command expects an input of one argument: project role string."
           ++ "Received: " ++ Py.str_nat (List.length args))
    end.

(** The guard is [len(args) <= 2] here too. *)
Definition add_hobby (args : list string) : M string :=
  input_error "Command 'add-hobby' failed"
    match args with
    | name_ :: ((_ :: _ :: _) as hobby) =>
        let hobby_str := Py.join " " hobby in
        note <- find_note_or name_
          ("note with name " ++ name_ ++ " doesn't exist. ") ;;
        on_note name_ (Note.add_hobby note hobby_str) ;;;
        ret ("Note " ++ name_ ++ " updated with hobby: " ++ hobby_str ++ ".")
    | _ =>
        raise CommandOperationalError
          ("command expects an input of two arguments: name and hobby, separated by a space. "
           ++ received args)
    end.

Definition find_hobby (args : list string) : M string :=
  input_error "Command 'find-hobby' failed"
    match args with
    | [hobby] =>
        fun b =>
          (Return ("Found Notes: "
                   ++ lines str_note (NotesBook.find_hobby (notes_book b) hobby)),
           b)
    | _ =>
        raise CommandOperationalError
          ("command expects an input of one argument: hobby string."
           ++ "Received: " ++ Py.str_nat (List.length args))
    end.

Definition update_hobby (args : list string) : M string :=
  input_error "Command 'update' failed"
    match args with
    | [name_; old_hobby; new_hobby] =>
        note <- find_note_or name_
          ("note with name " ++ name_ ++ " doesn't exist. ") ;;
        match Note.edit_hobby note old_hobby new_hobby with
        | None => raise KeyError (hobby_not_found old_hobby)
        | Some note' =>
            on_note name_ note' ;;;
            ret ("Note " ++ name_ ++ " updated with new hobby: " ++ new_hobby ++ ".")
        end
    | _ =>
        raise CommandOperationalError
          ("command expects an input of three arguments: name, old hobby and new hobby, separated by a space. "
           ++ received args)
    end.

Definition all_notes (args : list string) : M string :=
  fun b =>
    let command_output :=
      match args with
      | [] => ""
      | _ => "Warning: Command doesn't expect any arguments. "
             ++ received args ++ Py.nl
      end in
    (Return (command_output ++ "All Notes: "
             ++ lines str_note (NotesBook.values (notes_book b))),
     b).

Definition delete_contact (args : list string) : M string :=
  input_error "Command 'delete-contact' failed"
    match args with
    | [username] =>
        fun b =>
          match AddressBook.delete (address_book b) username with
          | None =>
              (Raise (Build CommandOperationalError
                        ("user with username " ++ username ++ " doesn't exist. ")),
               b)
          | Some book' =>
              (Return ("Contact " ++ username ++ " removed from Address book."),
               mk book' (notes_book b))
          end
    | _ =>
        raise CommandOperationalError
          ("command expects an input of one argument: username. "
           ++ received args)
    end.

(** The text of the seven handlers below for a missing contact. *)
Definition try_another (username : string) : string :=
  "user with username " ++ username ++ " doesn`t exist. Try another username".

Definition delete_phone (args : list string) : M string :=
  input_error "Command 'delete-phone' failed"
    match args with
    | [username; phone] =>
        record <- find_contact username (try_another username) ;;
        on_contact username (Rec.remove_phone phone_not_found record phone) ;;;
        ret ("Phone of contact  " ++ username ++ " removed from Address book.")
    | _ =>
        raise CommandOperationalError
          ("command expects an input of one argument: username and phone. "
           ++ received args)
    end.

Definition delete_email (args : list string) : M string :=
  input_error "Command 'delete-email' failed"
    match args with
    | [username] =>
        record <- find_contact username (try_another username) ;;
        on_contact username (inr (Rec.remove_email record)) ;;;
        ret ("Email of contact  " ++ username ++ " removed from Address book.")
    | _ =>
        raise CommandOperationalError
          ("command expects an input of one argument: username. "
           ++ received args)
    end.

Definition delete_address (args : list string) : M string :=
  input_error "Command 'delete-address' failed"
    match args with
    | [username] =>
        record <- find_contact username (try_another username) ;;
        on_contact username (inr (Rec.remove_address record)) ;;;
        ret ("Address of contact  " ++ username ++ " removed from Address book.")
    | _ =>
        raise CommandOperationalError
          ("command expects an input of one argument: username. "
           ++ received args)
    end.

Definition delete_birthday (args : list string) : M string :=
  input_error "Command 'delete-birthday' failed"
    match args with
    | [username] =>
        record <- find_contact username (try_another username) ;;
        on_contact username (inr (Rec.remove_birthday record)) ;;;
        ret ("Birthday of contact " ++ username ++ " removed from Address book.")
    | _ =>
        raise CommandOperationalError
          ("command expects an input of one argument: username. "
           ++ received args)
    end.

Definition update_email (args : list string) : M string :=
  input_error "Command 'update-email' failed"
    match args with
    | [username; email_] =>
        record <- find_contact username (try_another username) ;;
        on_contact username (Rec.update_email validate_email record email_) ;;;
        ret ("Email of contact  " ++ username ++ " updated.")
    | _ =>
        raise CommandOperationalError
          ("command expects an input of 2 arguments: username and email "
           ++ received args)
    end.

Definition update_address (args : list string) : M string :=
  input_error "Command 'update-address' failed"
    match args with
    | [username; address_] =>
        record <- find_contact username (try_another username) ;;
        on_contact username (Rec.update_address address_empty record address_) ;;;
        ret ("Address of contact  " ++ username ++ " updated.")
    | _ =>
        raise CommandOperationalError
          ("command expects an input of 2 arguments: username and address "
           ++ received args)
    end.

Definition update_birthday (args : list string) : M string :=
  input_error "Command 'update-birthday' failed"
    match args with
    | [username; birthday_] =>
        record <- find_contact username (try_another username) ;;
        on_contact username (Rec.update_birthday parse_date record birthday_) ;;;
        ret ("Birthday of contact  " ++ username ++ " updated.")
    | _ =>
        raise CommandOperationalError
          ("command expects an input of 2 arguments: username and birthday "
           ++ received args)
    end.

(** A dictionary with string keys, in insertion order. *)
Fixpoint lookup {A : Type} (key : string) (table : list (string * A))
  : option A :=
  match table with
  | [] => None
  | (k, v) :: rest => if (k =? key)%string then Some v else lookup key rest
  end.

(** [self.supported_commands] up to its last entry, ["help"]. *)
Definition commands_before_help : list (string * command) :=
  [ ("close", def stop
       (docstring "Stop the bot execution."
                  "message: Explanation why bot needs to stop"));
    ("exit", def stop
       (docstring "Stop the bot execution."
                  "message: Explanation why bot needs to stop"));
    ("hello", def say_hello "Outputs a hello message for user.");
    ("add", def add_contact
       (docstring "Add contact into Address Book."
                  "args: List with username and phone of user to add."));
    ("update-phone", def change_contact
       (docstring "Change contact in Address Book."
                  "args: List with username and phone of user to add."));
    ("phone", def get_contact
       (docstring "Get user phone by username."
                  "args: List of one argument - username"));
    ("search", def search_contact
       (docstring "Search user data by search query."
                  "args: List of one argument - search query"));
    ("all", def print_all_contacts
       (docstring "Prepares contacts to be outputted into console."
                  "args: Command doesn't expect any args, list should be empty."));
    ("add-birthday", def add_birthday
       (docstring "Add birthday date to already existing record."
                  "args: List with username and date to parse as YYYY.MM.DD."));
    ("show-birthday", def show_birthday
       (docstring "Get user birthday by username."
                  "args: List of one argument - username"));
    ("birthdays", def birthdays
       (docstring "Prepares all contacts to be outputted into console that have BD in a following number of days."
                  "args: Number of days."));
    ("add-address", def add_address
       (docstring "Add address to already existing record."
                  "args: List with username and address."));
    ("add-email", def add_email
       (docstring "Add email to already existing record."
                  "args: List with username and email."));
    ("add-note", def add_note
       (docstring "Add note into Notes Book."
                  "args: List note name and project role to add."));
    ("delete-note", def delete_note
       (docstring "Delete note by name."
                  "args: Name of note to remove."));
    ("find-note", def find_note
       (docstring "Find note by name."
                  "args: Note name to find."));
    ("all-notes", def all_notes
       (docstring "Prepares notes to be outputted into console."
                  "args: Command doesn't expect any args, list should be empty."));
    ("add-project-tasks", def add_project_tasks
       (docstring "Add project tasks to existing note."
                  "args: List with note name and project string."));
    ("add-hobby", def add_hobby
       (docstring "Add hobby to already existing note by name."
                  "args: List with name and hobby."));
    ("find-project-role", def find_project_role
       (docstring "Find notes by project role."
                  "args: Project role to find."));
    ("find-hobby", def find_hobby
       (docstring "Find notes by hobby."
                  "args: Hobby to find."));
    ("update-hobby", def update_hobby
       (docstring "Change specific hobbyin the note."
                  "args: List with name, old hobby and new hobby of note to add."));
    ("delete-contact", def delete_contact
       (docstring "Delete contact in Address Book."
                  "args: username of user to remove."));
    ("delete-email", def delete_email
       (docstring "Delete user email by username."
                  "args: List of one argument - username"));
    ("delete-phone", def delete_phone
       (docstring "Delete phone by username."
                  "args: List of two argument - username and phone."));
    ("delete-address", def delete_address
       (docstring "Delete user address by username."
                  "args: List of one argument - username"));
    ("delete-birthday", def delete_birthday
       (docstring "Delete user birthday by username."
                  "args: List of one argument - username"));
    ("update-email", def update_email
       (docstring "Update user email by username."
                  "args: List of two argument - username and email"));
    ("update-address", def update_address
       (docstring "Update user address by username."
                  "args: List of two argument - username and address"));
    ("update-birthday", def update_birthday
       (docstring "Update user birthday by username."
                  "args: List of two argument - username and birthday")) ].

Definition help_doc : string := "Outputs a help message for user.".

(** The names and docstrings of [self.supported_commands], which is all
    [help] reads of it. *)
Definition documentation : list (string * string) :=
  (map (fun entry => (fst entry, doc (snd entry))) commands_before_help
   ++ [("help", help_doc)])%list.

Definition help (args : list string) : M string :=
  let command_output :=
    match args with
    | _ :: _ :: _ =>
        "Warning: Command optionally expect one argument - command name. "
        ++ received args ++ Py.nl
    | _ => ""
    end in
  let search_command :=
    match args with
    | [] => None
    | first :: _ => if (first =? "")%string then None else Some first
    end in
  match search_command with
  | Some name_ =>
      match lookup name_ documentation with
      | None =>
          ret "Command not supported. Type 'help' to get list of supported commands."
      | Some text =>
          ret (command_output ++ "Command '" ++ name_ ++ "' help: "
               ++ Py.nl ++ text)
      end
  | None =>
      ret (command_output ++ "Supported commands: "
           ++ lines (fun c => c) (Py.sorted (map fst documentation))
           ++ Py.nl ++ Py.nl
           ++ "Type 'help <command>' to get help for specific command.")
  end.

Definition supported_commands : list (string * command) :=
  (commands_before_help ++ [("help", def help help_doc)])%list.

(** [execute_command] over a table of commands. *)
Definition execute_command_in (table : list (string * command))
           (command_ : string) (args : list string) : M string :=
  input_error "Command execution failed"
    match lookup command_ table with
    | None =>
        raise CommandNotSupported
          ("command '" ++ command_ ++ "' is not supported!")
    | Some command_handler => call command_handler args
    end.

Definition execute_command : string -> list string -> M string :=
  execute_command_in supported_commands.

(** [command, *args = user_input.split()] fails on an empty list. *)
Definition parse_input (user_input : string) : result (string * list string) :=
  match Py.split user_input with
  | [] =>
      Raise (Build ValueError
               "not enough values to unpack (expected at least 1, got 0)")
  | command_ :: args =>
      let command_ := Py.casefold command_ in
      if ((command_ =? "close") || (command_ =? "exit"))%string
      then Return (command_,
                   ["Command '" ++ command_ ++ "' received. Good buy!"])
      else Return (command_, args)
  end.

(** How [main] ends: by [break], by the [raise] of its last clause, or, in
    the model, by waiting for a line that does not come. *)
Inductive ending : Type :=
| Break
| Reraised (e : Exn.t)
| Prompting.

(** One turn of the loop after the prompt: the line printed, or the
    exception that reaches the [except] clauses.  (Building the completer
    and the prompt session reads the names of the contacts and the
    commands and changes nothing.) *)
Definition turn (user_input : string) : M string :=
  fun b =>
    match parse_input user_input with
    | Raise e => (Raise e, b)
    | Return (command_, args) =>
        match execute_command command_ args b with
        | (Return command_output, b') =>
            (Return ("Command was'" ++ command_
                     ++ "' executed, might have been successfully. Result is:"
                     ++ Py.nl ++ command_output),
             b')
        | (Raise e, b') => (Raise e, b')
        end
    end.

(** [main] on the lines typed at the prompts: what is printed, how the
    loop ends, and the bot then. *)
Fixpoint main (inputs : list string) (b : bot)
  : list string * ending * bot :=
  match inputs with
  | [] => ([], Prompting, b)
  | user_input :: later =>
      match turn user_input b with
      | (Return line, b') =>
          let '(printed, e, b'') := main later b' in
          (line :: printed, e, b'')
      | (Raise e, b') =>
          match class_of e with
          | CliHelperSigStop => ([str e], Break, b')
          | _ =>
              (["Unknown exception was encountered during execution: "
                ++ str e ++ "The bot will stop ..."],
               Reraised e, b')
          end
      end
  end.

End Handlers.

End CliHelperBot.

(** ** A data model to run the dispatcher on

    One admissible choice of what [Datamodels] leaves open: a phone is ten
    digits, an email holds an [@], a date is written [YYYY.MM.DD]. *)

Module Sample.

Open Scope Z_scope.

Fixpoint all_digits (s : string) : bool :=
  match s with
  | EmptyString => true
  | String c rest =>
      match Py.digit_val c with
      | Some _ => all_digits rest
      | None => false
      end
  end.

Definition phone (s : string) : string + string :=
  if (all_digits s && (String.length s =? 10)%nat)%bool then inr s
  else inl "Phone number must be ten digits".

Definition email (s : string) : string + string :=
  if Py.contains "@" s then inr s else inl "Email is not valid".

Definition number (s : string) : option Z :=
  if all_digits s then Py.digits 0 false s else None.

Definition date_of (s : string) : string + Calendar.date :=
  match number (substring 0 4 s), number (substring 5 2 s),
        number (substring 8 2 s) with
  | Some y, Some m, Some d =>
      if ((String.length s =? 10)%nat
          && (substring 4 1 s =? ".")%string && (substring 7 1 s =? ".")%string
          && Calendar.valid (Calendar.mkdate y m d))%bool
      then inr (Calendar.mkdate y m d)
      else inl "Invalid date format. Use YYYY.MM.DD"
  | _, _, _ => inl "Invalid date format. Use YYYY.MM.DD"
  end.

Definition show_Z (z : Z) : string := Py.str_nat (Z.to_nat z).

Definition show_date (d : Calendar.date) : string :=
  show_Z (Calendar.year d) ++ "." ++ show_Z (Calendar.month d) ++ "."
  ++ show_Z (Calendar.day d).

Definition show_record (r : Rec.t) : string :=
  "Contact name: " ++ Rec.name r ++ ", phones: " ++ Py.join "; " (Rec.phones r).

Definition show_note (n : Note.t) : string :=
  "Note: " ++ Note.name n ++ ", role: " ++ Note.project_role n
  ++ ", hobbies: " ++ Py.join "; " (Note.hobbies n).

Definition quoted (s : string) : string := "'" ++ s ++ "'".

Definition datamodels : Datamodels := {|
  validate_phone := phone;
  validate_email := email;
  parse_date := date_of;
  address_empty := "Address must not be empty";
  phone_not_found := quoted;
  hobby_not_found := quoted;
  key_not_found := quoted;
  str_record := show_record;
  str_note := show_note;
  str_date := show_date
|}.

(** The text of [n] digits, all of them ones. *)
Fixpoint ones (n : nat) : string :=
  match n with
  | O => EmptyString
  | S m => String "1" (ones m)
  end.

(** A Friday, the Sunday after it and the Tuesday after that. *)
Definition friday : Calendar.date := Calendar.mkdate 2024 3 1.
Definition sunday : Calendar.date := Calendar.mkdate 2024 3 3.
Definition tuesday : Calendar.date := Calendar.mkdate 2024 3 5.

Definition empty : CliHelperBot.bot := CliHelperBot.mk [] [].

(** The bot after the commands [cmds], each a command name and its
    arguments, run through [execute_command] from the empty bot. *)
Definition after (today : Calendar.date) (cmds : list (string * list string))
  : CliHelperBot.bot :=
  fold_left
    (fun b c =>
       snd (CliHelperBot.execute_command (D := datamodels) today (fst c) (snd c) b))
    cmds empty.

End Sample.

(** ** What a command does to the bot

    The predicates in which the behaviour of the handlers is stated. *)

Module Behaviour.

Import Exn CliHelperBot.

(** A string with a space character in it, and a word: a string that is not
    empty and has none. *)
Fixpoint has_space (s : string) : bool :=
  match s with
  | EmptyString => false
  | String c rest => Py.is_space c || has_space rest
  end.

Definition word (s : string) : Prop := s <> "" /\ has_space s = false.

(** The text [parse_input] puts in the place of the arguments of close and
    exit. *)
Definition farewell (command_ : string) : string :=
  "Command '" ++ command_ ++ "' received. Good buy!".

(** A handler that the decorator of [execute_command] has nothing to do
    with: it returns, or what it raises is none of the four classes. *)
Definition settled (h : list string -> M string) : Prop :=
  forall args b,
    match fst (h args b) with
    | Return _ => True
    | Raise e => caught (class_of e) = false
    end.

(** A handler that always returns a string. *)
Definition answers (h : list string -> M string) : Prop :=
  forall args b, exists s b', h args b = (Return s, b').

(** A handler that leaves the address book, or the notes book, as it is. *)
Definition leaves_contacts (h : list string -> M string) : Prop :=
  forall args b, address_book (snd (h args b)) = address_book b.

Definition leaves_notes (h : list string -> M string) : Prop :=
  forall args b, notes_book (snd (h args b)) = notes_book b.

(** The commands whose handlers call a method that changes the address book
    or one of its records, and those that do so for the notes book. *)
Definition contact_writers : list string :=
  ["add"; "update-phone"; "add-birthday"; "add-address"; "add-email";
   "delete-contact"; "delete-email"; "delete-phone"; "delete-address";
   "delete-birthday"; "update-email"; "update-address"; "update-birthday"].

Definition note_writers : list string :=
  ["add-note"; "delete-note"; "add-project-tasks"; "add-hobby"; "update-hobby"].

(** The commands that add or remove a contact. *)
Definition roster_writers : list string := ["add"; "delete-contact"].

(** A handler that leaves the names of the contacts as they are. *)
Definition keeps_names (h : list string -> M string) : Prop :=
  forall args b,
    AddressBook.get_all_names (address_book (snd (h args b)))
    = AddressBook.get_all_names (address_book b).

(** An address book in which no name occurs twice and every record is kept
    under its own name; the same for a notes book. *)
Definition well_formed (book : AddressBook.t) : Prop :=
  NoDup (AddressBook.get_all_names book)
  /\ Forall (fun entry => Rec.name (snd entry) = fst entry) book.

Definition notes_well_formed (book : NotesBook.t) : Prop :=
  NoDup (map fst book)
  /\ Forall (fun entry => Note.name (snd entry) = fst entry) book.

Definition bot_well_formed (b : bot) : Prop :=
  well_formed (address_book b) /\ notes_well_formed (notes_book b).

(** A handler that keeps the books well formed. *)
Definition keeps_well_formed (h : list string -> M string) : Prop :=
  forall args b, bot_well_formed b -> bot_well_formed (snd (h args b)).

(** A notes book in which every hobby of every note has a space in it. *)
Definition hobbies_spaced (book : NotesBook.t) : Prop :=
  Forall (fun entry =>
            Forall (fun hobby => has_space hobby = true) (Note.hobbies (snd entry)))
         book.

End Behaviour.


(** * Properties *)

(** ** Sanity checks of the built-ins and of the calendar *)

Example split_example :
  Py.split "  add  alice 1234567890 " = ["add"; "alice"; "1234567890"].
Proof. reflexivity. Qed.

Example int_examples :
  Py.int " 12 " = Some 12%Z /\ Py.int "-5" = Some (-5)%Z /\ Py.int "1_0" = Some 10%Z
  /\ Py.int "1__0" = None /\ Py.int "" = None /\ Py.int "ten" = None
  /\ Py.int "5_" = None /\ Py.int "+" = None.
Proof. repeat split; reflexivity. Qed.

(** [int] at its edges: a separator 28..31 is no blank for it, the other
    blanks are; one sign, no leading underscore. *)
Example int_edge_examples :
  Py.int (String (ascii_of_nat 28) "-5") = None
  /\ Py.int (String (ascii_of_nat 28) "5") = None
  /\ Py.int (String (ascii_of_nat 31) "5") = None
  /\ Py.int ("5" ++ String (ascii_of_nat 29) "") = None
  /\ Py.int (String (ascii_of_nat 9) ("-7" ++ String (ascii_of_nat 10) ""))
     = Some (-7)%Z
  /\ Py.int (String (ascii_of_nat 11) ("7" ++ String (ascii_of_nat 13) ""))
     = Some 7%Z
  /\ Py.int "0007" = Some 7%Z
  /\ Py.int "_7" = None
  /\ Py.int "+-7" = None.
Proof. repeat split; vm_compute; reflexivity. Qed.

(** 4300 digits are converted, 4301 are not, with or without a sign. *)
Example int_limit_examples :
  (exists z, Py.int (Sample.ones 4300) = Some z)
  /\ Py.int (Sample.ones 4301) = None
  /\ (exists z, Py.int ("-" ++ Sample.ones 4300) = Some z)
  /\ Py.int ("-" ++ Sample.ones 4301) = None.
Proof.
  split; [eexists; vm_compute; reflexivity|].
  split; [vm_compute; reflexivity|].
  split; [eexists; vm_compute; reflexivity|].
  vm_compute; reflexivity.
Qed.

Example calendar_examples :
  Calendar.toordinal (Calendar.mkdate 1 1 1) = 1%Z
  /\ Calendar.toordinal (Calendar.mkdate 2024 3 3) = 738948%Z
  /\ Calendar.weekday Sample.sunday = 6%Z
  /\ Calendar.weekday Sample.tuesday = 1%Z
  /\ Calendar.congratulation_date Sample.sunday = Calendar.mkdate 2024 3 4
  /\ Calendar.occurrence Sample.sunday (Calendar.mkdate 1990 3 5) = Some Sample.tuesday
  /\ Calendar.occurrence Sample.sunday (Calendar.mkdate 1990 3 2)
     = Some (Calendar.mkdate 2025 3 2)
  /\ Sample.date_of "1990.03.05" = inr (Calendar.mkdate 1990 3 5).
Proof. repeat split; reflexivity. Qed.

(** The scenarios of the spec, run through the dispatcher on the sample data
    model: a contact added twice, looked up and deleted; a birthday on
    5 March asked for on 3 March 2024 with three days ahead. *)
Example contact_scenario :
  let run := CliHelperBot.main (D := Sample.datamodels) Sample.sunday in
  fst (fst (run ["add alice 1234567890"; "add alice 1234567890"; "phone alice";
                 "delete-contact alice"; "phone alice"; "exit"] Sample.empty))
  = ["Command was'add' executed, might have been successfully. Result is:"
     ++ Py.nl ++ "Contact alice created with phone: 1234567890.";
     "Command was'add' executed, might have been successfully. Result is:"
     ++ Py.nl ++ "Command 'add' failed: user with username alice already exist. "
     ++ "If you want to update number, please use 'change' command.";
     "Command was'phone' executed, might have been successfully. Result is:"
     ++ Py.nl ++ "Record found: " ++ Py.nl
     ++ "Contact name: alice, phones: 1234567890";
     "Command was'delete-contact' executed, might have been successfully. Result is:"
     ++ Py.nl ++ "Contact alice removed from Address book.";
     "Command was'phone' executed, might have been successfully. Result is:"
     ++ Py.nl ++ "Command 'phone' failed: user with username alice doesn't exist. "
     ++ "Try another username.";
     "Command 'exit' received. Good buy!"].
Proof. reflexivity. Qed.

Example birthday_scenario :
  let alice := Rec.mk "alice" ["1234567890"] (Some (Calendar.mkdate 1990 3 5))
                      None None in
  AddressBook.get_birthdays_per_days Sample.sunday [("alice", alice)] 3
  = [(Sample.tuesday, [alice])]
  /\ AddressBook.get_birthdays_per_days Sample.sunday [("alice", alice)] 1 = [].
Proof. split; reflexivity. Qed.

(** ** The command layer: [input_error], [execute_command], [parse_input], [main] *)

Section CommandLayer.

Import Exn CliHelperBot.

Context {D : Datamodels}.
Variable today : Calendar.date.

Lemma input_error_caught (base : string) (func : M string) (b b' : bot) (e : Exn.t) :
  func b = (Raise e, b') ->
  caught (class_of e) = true ->
  input_error base func b = (Return (base ++ ": " ++ str e), b').
Proof.
  intros Hrun Hcls. unfold input_error. rewrite Hrun. simpl. now rewrite Hcls.
Qed.

Lemma input_error_escapes (base : string) (func : M string) (b b' : bot) (e : Exn.t) :
  func b = (Raise e, b') ->
  caught (class_of e) = false ->
  input_error base func b = (Raise e, b').
Proof.
  intros Hrun Hcls. unfold input_error. rewrite Hrun. simpl. now rewrite Hcls.
Qed.

Lemma input_error_returns (base : string) (func : M string) (b b' : bot) (s : string) :
  func b = (Return s, b') ->
  input_error base func b = (Return s, b').
Proof.
  intros Hrun. unfold input_error. now rewrite Hrun.
Qed.

(** C9.  Whenever the handler that [execute_command] invokes raises nothing
    but [CommandOperationalError], [CommandNotSupported], [ValueError] or
    [KeyError], [execute_command] returns a string: the handler's own
    result, or ["Command execution failed: <e>"] for the exception [e]
    the handler raised; for a name that is not a supported command the
    string is ["Command execution failed: command '<name>' is not
    supported!"].  The table of commands is arbitrary. *)
Theorem execute_command_returns_string
  (table : list (string * command)) (command_ : string) (args : list string)
  (b : bot) :
  (forall h e b',
      lookup command_ table = Some h ->
      call h args b = (Raise e, b') ->
      caught (class_of e) = true) ->
  (exists s b', execute_command_in table command_ args b = (Return s, b'))
  /\ execute_command_in table command_ args b
     = match lookup command_ table with
       | None =>
           (Return ("Command execution failed: command '" ++ command_
                    ++ "' is not supported!"), b)
       | Some h =>
           match call h args b with
           | (Return s, b') => (Return s, b')
           | (Raise e, b') => (Return ("Command execution failed: " ++ str e), b')
           end
       end.
Proof.
  intros Hraises.
  assert (Heq : execute_command_in table command_ args b
     = match lookup command_ table with
       | None =>
           (Return ("Command execution failed: command '" ++ command_
                    ++ "' is not supported!"), b)
       | Some h =>
           match call h args b with
           | (Return s, b') => (Return s, b')
           | (Raise e, b') => (Return ("Command execution failed: " ++ str e), b')
           end
       end).
  { unfold execute_command_in.
    destruct (lookup command_ table) as [h|] eqn:Hlook.
    - destruct (call h args b) as [[s|e] b'] eqn:Hcall.
      + now apply input_error_returns.
      + rewrite (input_error_caught "Command execution failed" _ b b' e Hcall);
          [reflexivity|].
        eapply Hraises; eauto.
    - reflexivity. }
  split; [|exact Heq].
  rewrite Heq.
  destruct (lookup command_ table) as [h|]; [|eauto].
  destruct (call h args b) as [[s|e] b']; eauto.
Qed.

Lemma split_blank (s : string) :
  Py.blank s = true -> Py.split_from "" s = [].
Proof.
  induction s as [|c rest IH]; simpl; intros Hblank; [reflexivity|].
  apply andb_true_iff in Hblank as [Hc Hrest].
  rewrite Hc. now apply IH.
Qed.

(** C10.  For an input line with no character but spaces (the empty line
    included) [parse_input] raises [ValueError], the unpacking of the
    empty split, and returns no pair; [main] prints its notice and
    re-raises the exception, which ends the bot whatever lines would
    follow. *)
Theorem parse_input_blank_line_ends_bot
  (user_input : string) (later : list string) (b : bot) :
  Py.blank user_input = true ->
  parse_input user_input
  = Raise (Build ValueError
             "not enough values to unpack (expected at least 1, got 0)")
  /\ main today (user_input :: later) b
     = (["Unknown exception was encountered during execution: "
         ++ "not enough values to unpack (expected at least 1, got 0)"
         ++ "The bot will stop ..."],
        Reraised (Build ValueError
                    "not enough values to unpack (expected at least 1, got 0)"),
        b).
Proof.
  intros Hblank.
  assert (Hparse : parse_input user_input
                   = Raise (Build ValueError
                       "not enough values to unpack (expected at least 1, got 0)")).
  { unfold parse_input, Py.split. now rewrite (split_blank _ Hblank). }
  split; [exact Hparse|].
  cbn [main]. unfold turn. rewrite Hparse. reflexivity.
Qed.

(** C2.  The add-hobby command called with exactly two arguments, the name
    of a note and a one-word hobby, is rejected as having too few
    arguments: the guard of the handler is [len(args) <= 2].  The books
    are left as they were, whether the note exists or not. *)
Theorem add_hobby_rejects_two_arguments (name_ hobby : string) (b : bot) :
  execute_command today "add-hobby" [name_; hobby] b
  = (Return ("Command 'add-hobby' failed: "
             ++ "command expects an input of two arguments: name and hobby, separated by a space. "
             ++ "Received: " ++ name_ ++ " " ++ hobby),
     b).
Proof. reflexivity. Qed.

(** C8.  The update-phone handler called with a username and a phone for a
    contact whose phones are empty raises [IndexError] at
    [record.phones[0]]; neither the decorator of the handler nor that of
    [execute_command] catches it, so it leaves the command layer, and
    [main] re-raises it.  Such a contact is what add followed by
    delete-phone of the only phone leaves behind. *)
Theorem change_contact_index_error_escapes
  (username phone : string) (b : bot) (record : Rec.t) :
  AddressBook.find (address_book b) username = Some record ->
  Rec.phones record = [] ->
  caught IndexError = false
  /\ change_contact [username; phone] b
     = (Raise (Build IndexError "list index out of range"), b)
  /\ execute_command today "update-phone" [username; phone] b
     = (Raise (Build IndexError "list index out of range"), b).
Proof.
  intros Hfind Hphones.
  assert (Hhandler : change_contact [username; phone] b
                     = (Raise (Build IndexError "list index out of range"), b)).
  { unfold change_contact. apply input_error_escapes; [|reflexivity].
    unfold bind, find_contact. rewrite Hfind, Hphones. reflexivity. }
  repeat split; [exact Hhandler|].
  unfold execute_command, execute_command_in.
  apply input_error_escapes; [|reflexivity].
  exact Hhandler.
Qed.

End CommandLayer.

Lemma execute_command_returns_string_witness :
  let table :=
    [("boom", CliHelperBot.def
                (fun _ => CliHelperBot.raise Exn.ValueError "bad value") "")] in
  CliHelperBot.execute_command_in table "boom" [] Sample.empty
  = (Exn.Return "Command execution failed: bad value", Sample.empty).
Proof.
  intros table.
  refine (eq_trans
            (proj2 (execute_command_returns_string table "boom" [] Sample.empty _))
            eq_refl).
  intros h e b' Hlook Hcall.
  injection Hlook as <-. injection Hcall as <- _. reflexivity.
Defined.

Lemma parse_input_blank_line_ends_bot_witness :
  CliHelperBot.main (D := Sample.datamodels) Sample.sunday ["   "; "all"] Sample.empty
  = (["Unknown exception was encountered during execution: "
      ++ "not enough values to unpack (expected at least 1, got 0)"
      ++ "The bot will stop ..."],
     CliHelperBot.Reraised
       (Exn.Build Exn.ValueError
          "not enough values to unpack (expected at least 1, got 0)"),
     Sample.empty).
Proof.
  exact (proj2 (parse_input_blank_line_ends_bot
                  (D := Sample.datamodels) Sample.sunday "   " ["all"] Sample.empty
                  eq_refl)).
Defined.

Lemma change_contact_index_error_escapes_witness :
  let b := Sample.after Sample.sunday
             [("add", ["alice"; "1234567890"]);
              ("delete-phone", ["alice"; "1234567890"])] in
  CliHelperBot.execute_command (D := Sample.datamodels) Sample.sunday
    "update-phone" ["alice"; "0987654321"] b
  = (Exn.Raise (Exn.Build Exn.IndexError "list index out of range"), b).
Proof.
  intros b.
  exact (proj2 (proj2 (change_contact_index_error_escapes
                         (D := Sample.datamodels) Sample.sunday
                         "alice" "0987654321" b
                         (Rec.mk "alice" [] None None None)
                         eq_refl eq_refl))).
Defined.

(** ** The books: lookup, insertion and write-back *)

Section Books.

Import Exn CliHelperBot.

Context {D : Datamodels}.

Lemma find_none_iff (book : AddressBook.t) (name_ : string) :
  AddressBook.find book name_ = None
  <-> ~ In name_ (AddressBook.get_all_names book).
Proof.
  induction book as [|[k r] rest IH]; simpl.
  - tauto.
  - destruct (String.eqb_spec k name_) as [->|Hne].
    + split; [discriminate|]. intros Hnot. exfalso. apply Hnot. now left.
    + rewrite IH. tauto.
Qed.

Lemma find_some_of_key (book : AddressBook.t) (name_ : string) :
  In name_ (AddressBook.get_all_names book) ->
  exists r, AddressBook.find book name_ = Some r.
Proof.
  intros Hin. destruct (AddressBook.find book name_) as [r|] eqn:Hfind.
  - now exists r.
  - apply find_none_iff in Hfind. contradiction.
Qed.

Lemma note_find_none_iff (book : NotesBook.t) (name_ : string) :
  NotesBook.find book name_ = None <-> ~ In name_ (map fst book).
Proof.
  induction book as [|[k n] rest IH]; simpl.
  - tauto.
  - destruct (String.eqb_spec k name_) as [->|Hne].
    + split; [discriminate|]. intros Hnot. exfalso. apply Hnot. now left.
    + rewrite IH. tauto.
Qed.

Lemma find_store_same (book : AddressBook.t) (name_ : string) (r r' : Rec.t) :
  AddressBook.find book name_ = Some r ->
  AddressBook.find (AddressBook.store book name_ r') name_ = Some r'.
Proof.
  induction book as [|[k x] rest IH]; simpl; [discriminate|].
  destruct (String.eqb_spec k name_) as [->|Hne]; simpl.
  - now rewrite String.eqb_refl.
  - intros Hfind. apply String.eqb_neq in Hne. rewrite Hne. now apply IH.
Qed.

Lemma store_store (book : AddressBook.t) (name_ : string) (r1 r2 : Rec.t) :
  AddressBook.store (AddressBook.store book name_ r1) name_ r2
  = AddressBook.store book name_ r2.
Proof.
  induction book as [|[k x] rest IH]; simpl; [reflexivity|].
  destruct (String.eqb_spec k name_) as [->|Hne]; simpl.
  - now rewrite String.eqb_refl.
  - apply String.eqb_neq in Hne. rewrite Hne. now rewrite IH.
Qed.

(** C3.  [add_record] on a record whose name is already a key returns the
    sentinel [None] and leaves the book as it was; on a new name it appends
    the record and returns it.  [NotesBook.add_note] does the same.  So the
    add and add-note commands on a name in use report failure and leave the
    books unchanged: no duplicate is made. *)
Theorem add_record_already_exists_sentinel
  (book : AddressBook.t) (record : Rec.t) (notes : NotesBook.t) (note : Note.t)
  (username phone name_ project_role : string) (b : bot) :
  (In (Rec.name record) (AddressBook.get_all_names book) ->
   AddressBook.add_record book record = (None, book))
  /\ (~ In (Rec.name record) (AddressBook.get_all_names book) ->
      AddressBook.add_record book record
      = (Some record, (book ++ [(Rec.name record, record)])%list))
  /\ (In (Note.name note) (map fst notes) ->
      NotesBook.add_note notes note = (None, notes))
  /\ (~ In (Note.name note) (map fst notes) ->
      NotesBook.add_note notes note
      = (Some note, (notes ++ [(Note.name note, note)])%list))
  /\ (In username (AddressBook.get_all_names (address_book b)) ->
      exists msg,
        add_contact [username; phone] b
        = (Return ("Command 'add' failed: " ++ msg), b))
  /\ (In name_ (map fst (notes_book b)) ->
      add_note [name_; project_role] b
      = (Return ("Command 'add-note' failed: Note " ++ name_ ++ " already exist. "
                 ++ "If you want to update project role, please use 'change-project-role' command."),
         b)).
Proof.
  repeat split.
  - intros Hin. unfold AddressBook.add_record.
    destruct (find_some_of_key _ _ Hin) as [r Hfind]. now rewrite Hfind.
  - intros Hnot. unfold AddressBook.add_record.
    apply find_none_iff in Hnot. now rewrite Hnot.
  - intros Hin. unfold NotesBook.add_note.
    destruct (NotesBook.find notes (Note.name note)) eqn:Hfind; [reflexivity|].
    apply note_find_none_iff in Hfind. contradiction.
  - intros Hnot. unfold NotesBook.add_note.
    apply note_find_none_iff in Hnot. now rewrite Hnot.
  - intros Hin. destruct (find_some_of_key _ _ Hin) as [r Hfind].
    unfold add_contact, input_error, Rec.create. simpl.
    destruct (validate_phone phone) as [msg|v]; simpl.
    + now exists msg.
    + unfold AddressBook.add_record. simpl. rewrite Hfind. simpl.
      destruct b. now eexists.
  - intros Hin. unfold add_note, input_error, NotesBook.add_note. simpl.
    destruct (NotesBook.find (notes_book b) name_) eqn:Hfind.
    + simpl. now destruct b.
    + apply note_find_none_iff in Hfind. contradiction.
Qed.

(** C7.  [remove_email], [remove_address] and [remove_birthday] are total
    (they have no way to raise) and idempotent: a second call leaves the
    record as the first one left it.  Through the dispatcher, delete-email,
    delete-address and delete-birthday run a second time answer as the
    first time and leave the books as they were. *)
Theorem remove_field_idempotent (r : Rec.t) (username : string) (b : bot) :
  Rec.remove_email (Rec.remove_email r) = Rec.remove_email r
  /\ Rec.remove_address (Rec.remove_address r) = Rec.remove_address r
  /\ Rec.remove_birthday (Rec.remove_birthday r) = Rec.remove_birthday r
  /\ delete_email [username] (snd (delete_email [username] b))
     = delete_email [username] b
  /\ delete_address [username] (snd (delete_address [username] b))
     = delete_address [username] b
  /\ delete_birthday [username] (snd (delete_birthday [username] b))
     = delete_birthday [username] b.
Proof.
  repeat split;
    unfold delete_email, delete_address, delete_birthday, input_error, bind,
      find_contact, on_contact, ret; simpl;
    destruct (AddressBook.find (address_book b) username) as [x|] eqn:Hfind;
    simpl; rewrite ?Hfind; simpl; try reflexivity;
    erewrite find_store_same by eassumption; simpl;
    now rewrite store_store.
Qed.

(** C6, as amended.  For a name that is not a key [find] fails, and each
    handler that catches the failure answers with its own text: only that
    of add-birthday and update-phone points to the 'add' command;
    add-address and add-email name themselves; phone and show-birthday,
    delete-contact, delete-phone, delete-email, delete-address,
    delete-birthday, update-email, update-address and update-birthday say
    that the user does not exist and name no command.  The books are left
    as they were. *)
Theorem missing_contact_messages (username x : string) (b : bot) :
  ~ In username (AddressBook.get_all_names (address_book b)) ->
  AddressBook.find (address_book b) username = None
  /\ add_birthday [username; x] b
     = (Return ("Command 'add-birthday' failed: user with username " ++ username
                ++ " doesn't exist. If you want to add number, please use 'add' command."),
        b)
  /\ change_contact [username; x] b
     = (Return ("Command 'update' failed: user with username " ++ username
                ++ " doesn't exist. If you want to add number, please use 'add' command."),
        b)
  /\ add_address [username; x] b
     = (Return ("Command 'add-address' failed: user with username " ++ username
                ++ " doesn't exist. If you want to add address, please use 'add-address' command."),
        b)
  /\ add_email [username; x] b
     = (Return ("Command 'add-email' failed: user with username " ++ username
                ++ " doesn't exist. If you want to add email, please use 'add-email' command."),
        b)
  /\ get_contact [username] b
     = (Return ("Command 'phone' failed: user with username " ++ username
                ++ " doesn't exist. Try another username."),
        b)
  /\ show_birthday [username] b
     = (Return ("Command 'show-birthday' failed: user with username " ++ username
                ++ " doesn't exist. Try another username."),
        b)
  /\ delete_contact [username] b
     = (Return ("Command 'delete-contact' failed: user with username " ++ username
                ++ " doesn't exist. "),
        b)
  /\ delete_phone [username; x] b
     = (Return ("Command 'delete-phone' failed: " ++ try_another username), b)
  /\ delete_email [username] b
     = (Return ("Command 'delete-email' failed: " ++ try_another username), b)
  /\ delete_address [username] b
     = (Return ("Command 'delete-address' failed: " ++ try_another username), b)
  /\ delete_birthday [username] b
     = (Return ("Command 'delete-birthday' failed: " ++ try_another username), b)
  /\ update_email [username; x] b
     = (Return ("Command 'update-email' failed: " ++ try_another username), b)
  /\ update_address [username; x] b
     = (Return ("Command 'update-address' failed: " ++ try_another username), b)
  /\ update_birthday [username; x] b
     = (Return ("Command 'update-birthday' failed: " ++ try_another username), b).
Proof.
  intros Hnot. apply find_none_iff in Hnot.
  repeat split; try exact Hnot;
    unfold add_birthday, change_contact, add_address, add_email, get_contact,
      show_birthday, delete_contact, delete_phone, delete_email,
      delete_address, delete_birthday, update_email, update_address,
      update_birthday, AddressBook.delete, input_error, bind, find_contact;
    rewrite Hnot; reflexivity.
Qed.

End Books.

Lemma add_record_already_exists_sentinel_witness :
  let b := Sample.after Sample.sunday [("add", ["alice"; "1234567890"])] in
  exists msg,
    CliHelperBot.add_contact (D := Sample.datamodels) ["alice"; "5550001111"] b
    = (Exn.Return ("Command 'add' failed: " ++ msg), b).
Proof.
  intros b.
  refine (proj1 (proj2 (proj2 (proj2 (proj2
            (add_record_already_exists_sentinel (D := Sample.datamodels)
               [] (Rec.mk "alice" [] None None None) [] (Note.create "n" "r")
               "alice" "5550001111" "n" "r" b))))) _).
  simpl. now left.
Defined.

Lemma missing_contact_messages_witness :
  CliHelperBot.add_birthday (D := Sample.datamodels) ["bob"; "1990.03.05"] Sample.empty
  = (Exn.Return ("Command 'add-birthday' failed: user with username bob"
                 ++ " doesn't exist. If you want to add number, please use 'add' command."),
     Sample.empty).
Proof.
  refine (proj1 (proj2 (missing_contact_messages (D := Sample.datamodels)
                          "bob" "1990.03.05" Sample.empty _))).
  simpl. tauto.
Defined.

(** C6, the claim as it stands: the phone command asked for a contact that
    does not exist answers without a word of the add command. *)
Lemma get_contact_message_names_no_add_command :
  AddressBook.find (CliHelperBot.address_book Sample.empty) "bob" = None
  /\ exists msg,
       CliHelperBot.execute_command (D := Sample.datamodels) Sample.sunday
         "phone" ["bob"] Sample.empty
       = (Exn.Return msg, Sample.empty)
       /\ msg = "Command 'phone' failed: user with username bob doesn't exist. Try another username."
       /\ Py.contains "add" msg = false.
Proof.
  split; [reflexivity|]. eexists. repeat split.
Qed.

(** ** The calendar and the birthday report *)

Section Birthdays.

Import Calendar.
Open Scope Z_scope.

Lemma date_eqb_eq (a b : date) : date_eqb a b = true <-> a = b.
Proof.
  destruct a as [y1 m1 d1], b as [y2 m2 d2]. unfold date_eqb. simpl.
  rewrite !andb_true_iff, !Z.eqb_eq. split.
  - intros [[-> ->] ->]. reflexivity.
  - intros H. injection H as -> -> ->. auto.
Qed.

Lemma days_before_next_year (y : Z) :
  days_before_year (y + 1)
  = days_before_year y + 365 + (if is_leap y then 1 else 0).
Proof.
  unfold is_leap, days_before_year.
  replace (y + 1 - 1) with y by lia.
  destruct (Z.eqb_spec (y mod 4) 0);
    destruct (Z.eqb_spec (y mod 100) 0);
    destruct (Z.eqb_spec (y mod 400) 0); simpl;
    Z.div_mod_to_equations; lia.
Qed.

(** The day after a date of the calendar is a date of the calendar, and the
    next in the count of days. *)
Lemma toordinal_next_day (d : date) :
  valid d = true ->
  valid (next_day d) = true /\ toordinal (next_day d) = toordinal d + 1.
Proof.
  destruct d as [y m dd]. unfold valid, next_day, toordinal. simpl.
  intros Hv.
  repeat (apply andb_true_iff in Hv as [Hv ?]).
  pose proof (days_before_next_year y) as Hnext.
  assert (Hm : m = 1 \/ m = 2 \/ m = 3 \/ m = 4 \/ m = 5 \/ m = 6 \/ m = 7
               \/ m = 8 \/ m = 9 \/ m = 10 \/ m = 11 \/ m = 12) by lia.
  repeat (destruct Hm as [->|Hm]); try subst m; simpl in *;
    destruct (is_leap y) eqn:Hl; simpl in *;
    match goal with
    | |- context [if ?c then _ else _] => destruct c eqn:Hc
    end; simpl; rewrite ?Hl; simpl; split; try lia.
  all: try (apply andb_true_iff; split; lia).
  all: unfold days_before_month; simpl; rewrite ?Hl; simpl; lia.
Qed.

Lemma weekday_range (d : date) : 0 <= weekday d < 7.
Proof. unfold weekday. apply Z.mod_pos_bound. lia. Qed.

(** The congratulation date of a date of the calendar: the date itself from
    Monday to Friday, the Monday after it on Saturday and Sunday. *)
Lemma congratulation_date_spec (occ : date) :
  valid occ = true ->
  valid (congratulation_date occ) = true
  /\ (weekday occ < 5 -> congratulation_date occ = occ)
  /\ (weekday occ = 5 ->
      toordinal (congratulation_date occ) = toordinal occ + 2
      /\ weekday (congratulation_date occ) = 0)
  /\ (weekday occ = 6 ->
      toordinal (congratulation_date occ) = toordinal occ + 1
      /\ weekday (congratulation_date occ) = 0).
Proof.
  intros Hv. unfold congratulation_date.
  destruct (toordinal_next_day occ Hv) as [Hv1 Ho1].
  destruct (toordinal_next_day (next_day occ) Hv1) as [Hv2 Ho2].
  destruct (Z.eqb_spec (weekday occ) 5) as [H5|H5];
    [|destruct (Z.eqb_spec (weekday occ) 6) as [H6|H6]].
  - repeat split; try lia; try assumption.
    unfold weekday in *. rewrite Ho2, Ho1.
    Z.div_mod_to_equations. lia.
  - repeat split; try lia; try assumption.
    unfold weekday in *. rewrite Ho1.
    Z.div_mod_to_equations. lia.
  - repeat split; try lia; try assumption.
Qed.

(** The occurrence is a date of the calendar with the month and day of the
    birthday; it lies in this year and not before today, or in the next
    year when this year's day is past or does not exist. *)
Lemma occurrence_spec (today b occ : date) :
  occurrence today b = Some occ ->
  valid occ = true /\ month occ = month b /\ day occ = day b
  /\ ((year occ = year today /\ toordinal today <= toordinal occ)
      \/ (year occ = year today + 1
          /\ forall d, replace_year (year today) b = Some d ->
                       toordinal d < toordinal today)).
Proof.
  unfold occurrence, replace_year.
  destruct (valid (mkdate (year today) (month b) (day b))) eqn:Hthis.
  - destruct (Z.leb_spec (toordinal today)
                (toordinal (mkdate (year today) (month b) (day b)))) as [Hle|Hlt].
    + intros H. injection H as <-. simpl. repeat split; auto.
    + destruct (valid (mkdate (year today + 1) (month b) (day b))) eqn:Hnext;
        [|discriminate].
      intros H. injection H as <-. simpl. repeat split; auto.
      right. split; [reflexivity|]. intros d Hd. injection Hd as <-. exact Hlt.
  - destruct (valid (mkdate (year today + 1) (month b) (day b))) eqn:Hnext;
      [|discriminate].
    intros H. injection H as <-. simpl. repeat split; auto.
    right. split; [reflexivity|]. intros d Hd. discriminate.
Qed.

End Birthdays.

Section Report.

Import Calendar AddressBook.
Open Scope Z_scope.

Variable today : date.
Variable n : Z.

Lemma listed_nil (key : date) (r : Rec.t) : ~ listed key r [].
Proof. intros [rs [[] _]]. Qed.

Lemma listed_cons (key k : date) (r : Rec.t) (rs : list Rec.t) (gs : groups) :
  listed key r ((k, rs) :: gs) <-> (key = k /\ In r rs) \/ listed key r gs.
Proof.
  unfold listed. split.
  - intros [l [[Heq|Hin] Hr]].
    + injection Heq as -> ->. now left.
    + right. now exists l.
  - intros [[-> Hr]|[l [Hin Hr]]].
    + exists rs. split; [now left|exact Hr].
    + exists l. split; [now right|exact Hr].
Qed.

Lemma add_to_group_listed (key key' : date) (r r' : Rec.t) (gs : groups) :
  listed key' r' (add_to_group key r gs)
  <-> listed key' r' gs \/ (key' = key /\ r' = r).
Proof.
  induction gs as [|[k rs] rest IH]; simpl.
  - rewrite listed_cons. simpl.
    pose proof (listed_nil key' r'). intuition (subst; auto).
  - destruct (date_eqb k key) eqn:Hk.
    + apply date_eqb_eq in Hk. subst k.
      rewrite !listed_cons, in_app_iff. simpl.
      intuition (subst; auto).
    + rewrite !listed_cons, IH. tauto.
Qed.

Lemma fold_visit_listed (key : date) (r : Rec.t) (rs : list Rec.t) (gs : groups) :
  listed key r (fold_left (visit today n) rs gs)
  <-> listed key r gs \/ (In r rs /\ congratulate today n r = Some key).
Proof.
  revert gs. induction rs as [|x rest IH]; intros gs; simpl.
  - tauto.
  - rewrite IH. unfold visit.
    destruct (congratulate today n x) as [kx|] eqn:Hx.
    + rewrite add_to_group_listed. split.
      * intros [[H|[-> ->]]|[H1 H2]]; auto.
      * intros [H|[[->|H1] H2]]; auto.
        left. right. split; [congruence|reflexivity].
    + split.
      * intros [H|[H1 H2]]; auto.
      * intros [H|[[->|H1] H2]]; auto. congruence.
Qed.

Lemma insert_group_in (g h : date * list Rec.t) (gs : groups) :
  In g (insert_group h gs) <-> g = h \/ In g gs.
Proof.
  induction gs as [|x rest IH]; simpl.
  - intuition auto.
  - destruct (toordinal (fst h) <=? toordinal (fst x)); simpl.
    + intuition auto.
    + rewrite IH. intuition auto.
Qed.

Lemma sort_groups_in (g : date * list Rec.t) (gs : groups) :
  In g (sort_groups gs) <-> In g gs.
Proof.
  induction gs as [|x rest IH]; simpl; [tauto|].
  rewrite insert_group_in, IH. intuition auto.
Qed.

Lemma congratulate_spec (r : Rec.t) (key : date) :
  congratulate today n r = Some key
  <-> exists b occ,
        Rec.birthday r = Some b /\ occurrence today b = Some occ
        /\ toordinal today <= toordinal occ <= toordinal today + n
        /\ key = congratulation_date occ.
Proof.
  unfold congratulate, in_window. split.
  - destruct (Rec.birthday r) as [b|]; [|discriminate].
    destruct (occurrence today b) as [occ|] eqn:Hocc; [|discriminate].
    destruct (Z.leb_spec (toordinal today) (toordinal occ)) as [Hlo|Hlo];
      destruct (Z.leb_spec (toordinal occ) (toordinal today + n)) as [Hhi|Hhi];
      simpl; try discriminate.
    intros Hkey. injection Hkey as <-. exists b, occ. repeat split; auto.
  - intros [b [occ [-> [-> [[H1 H2] ->]]]]].
    apply Z.leb_le in H1, H2. now rewrite H1, H2.
Qed.

(** C1.  A record is in the group of a date in
    [get_birthdays_per_days(n)] exactly when it is a record of the book
    with a birthday whose occurrence lies in the window from today to
    today plus [n] days, both included, and the date is the congratulation
    date of that occurrence; so a record without a birthday is in no
    group.  The occurrence has the month and day of the birthday and lies
    in this year, not before today, or in the next year when this year's
    day is past (or does not exist).  The congratulation date is the
    occurrence itself from Monday to Friday, and the Monday after it, two
    days or one day later, on Saturday and on Sunday. *)
Theorem get_birthdays_per_days_groups
  (book : AddressBook.t) (r : Rec.t) (key : date) :
  ((exists rs, In (key, rs) (get_birthdays_per_days today book n) /\ In r rs)
   <-> In r (values book)
       /\ exists b occ,
            Rec.birthday r = Some b /\ occurrence today b = Some occ
            /\ toordinal today <= toordinal occ <= toordinal today + n
            /\ key = congratulation_date occ)
  /\ (Rec.birthday r = None ->
      forall g, In g (get_birthdays_per_days today book n) -> ~ In r (snd g))
  /\ (forall b occ,
        occurrence today b = Some occ ->
        (month occ = month b /\ day occ = day b
         /\ ((year occ = year today /\ toordinal today <= toordinal occ)
             \/ (year occ = year today + 1
                 /\ forall d, replace_year (year today) b = Some d ->
                              toordinal d < toordinal today)))
        /\ (weekday occ < 5 -> congratulation_date occ = occ)
        /\ (weekday occ = 5 ->
            toordinal (congratulation_date occ) = toordinal occ + 2
            /\ weekday (congratulation_date occ) = 0)
        /\ (weekday occ = 6 ->
            toordinal (congratulation_date occ) = toordinal occ + 1
            /\ weekday (congratulation_date occ) = 0)).
Proof.
  assert (Hgroups : forall k x,
             listed k x (get_birthdays_per_days today book n)
             <-> In x (values book) /\ congratulate today n x = Some k).
  { intros k x. unfold get_birthdays_per_days, listed.
    transitivity (listed k x (fold_left (visit today n) (values book) [])).
    - unfold listed. split; intros [rs [Hin Hr]]; exists rs;
        (split; [now apply sort_groups_in|exact Hr]).
    - rewrite fold_visit_listed. pose proof (listed_nil k x). tauto. }
  split; [|split].
  - change (listed key r (get_birthdays_per_days today book n)
            <-> In r (values book)
                /\ exists b occ,
                     Rec.birthday r = Some b /\ occurrence today b = Some occ
                     /\ toordinal today <= toordinal occ <= toordinal today + n
                     /\ key = congratulation_date occ).
    now rewrite Hgroups, congratulate_spec.
  - intros Hnone [k rs] Hin Hr. simpl in Hr.
    assert (Hl : listed k r (get_birthdays_per_days today book n))
      by (exists rs; auto).
    apply Hgroups in Hl as [_ Hc].
    unfold congratulate in Hc. rewrite Hnone in Hc. discriminate.
  - intros b occ Hocc.
    destruct (occurrence_spec _ _ _ Hocc) as [Hv [Hm [Hd Hy]]].
    destruct (congratulation_date_spec occ Hv) as [_ [Hw [Hsat Hsun]]].
    repeat split; auto; try (now apply Hsat); try (now apply Hsun).
Qed.

(** A window of a negative number of days holds no date. *)
Lemma negative_window_empty (book : AddressBook.t) :
  n < 0 -> get_birthdays_per_days today book n = [].
Proof.
  intros Hneg. unfold get_birthdays_per_days.
  assert (Hfold : forall rs gs, fold_left (visit today n) rs gs = gs).
  { induction rs as [|x rest IH]; intros gs; simpl; [reflexivity|].
    rewrite IH. unfold visit, congratulate, in_window.
    destruct (Rec.birthday x) as [b|]; [|reflexivity].
    destruct (occurrence today b) as [occ|]; [|reflexivity].
    destruct (Z.leb_spec (toordinal today) (toordinal occ)) as [Hlo|Hlo];
      destruct (Z.leb_spec (toordinal occ) (toordinal today + n)) as [Hhi|Hhi];
      simpl; try reflexivity.
    lia. }
  now rewrite Hfold.
Qed.

End Report.

Lemma get_birthdays_per_days_groups_witness :
  let book :=
    CliHelperBot.address_book
      (Sample.after Sample.friday
         [("add", ["alice"; "1234567890"]);
          ("add-birthday", ["alice"; "1990.03.03"])]) in
  exists rs,
    In (Calendar.mkdate 2024 3 4, rs)
       (AddressBook.get_birthdays_per_days Sample.friday book 3)
    /\ In (Rec.mk "alice" ["1234567890"] (Some (Calendar.mkdate 1990 3 3)) None None)
          rs.
Proof.
  intros book.
  apply (proj2 (proj1 (get_birthdays_per_days_groups Sample.friday 3 book
                         (Rec.mk "alice" ["1234567890"]
                                 (Some (Calendar.mkdate 1990 3 3)) None None)
                         (Calendar.mkdate 2024 3 4)))).
  split; [now left|].
  exists (Calendar.mkdate 1990 3 3), Sample.sunday.
  repeat split; try reflexivity; apply Z.leb_le; reflexivity.
Defined.

(** ** The birthdays command and its argument *)

Section BirthdaysCommand.

Import Exn CliHelperBot.

Context {D : Datamodels}.
Variable today : Calendar.date.

Lemma count_digits_app (s t : string) :
  Py.count_digits (s ++ t) = (Py.count_digits s + Py.count_digits t)%nat.
Proof.
  induction s as [|c rest IH]; simpl; [reflexivity|].
  destruct (Py.digit_val c); simpl; now rewrite IH.
Qed.

Lemma count_digits_rev (s : string) :
  Py.count_digits (Py.rev s) = Py.count_digits s.
Proof.
  induction s as [|c rest IH]; simpl; [reflexivity|].
  rewrite count_digits_app, IH. simpl.
  destruct (Py.digit_val c); lia.
Qed.

Lemma int_space_no_digit (c : ascii) :
  Py.is_int_space c = true -> Py.digit_val c = None.
Proof.
  destruct c as [[] [] [] [] [] [] [] []]; intros H;
    first [reflexivity | discriminate H].
Qed.

Lemma count_digits_lstrip (s : string) :
  Py.count_digits (Py.int_lstrip s) = Py.count_digits s.
Proof.
  induction s as [|c rest IH]; [reflexivity|].
  cbn [Py.int_lstrip Py.count_digits].
  destruct (Py.is_int_space c) eqn:Hc; [|reflexivity].
  now rewrite (int_space_no_digit c Hc).
Qed.

Lemma count_digits_strip (s : string) :
  Py.count_digits (Py.int_strip s) = Py.count_digits s.
Proof.
  unfold Py.int_strip.
  now rewrite count_digits_rev, count_digits_lstrip, count_digits_rev,
    count_digits_lstrip.
Qed.

Lemma literal_over_limit (s : string) :
  (Py.int_max_str_digits < Py.count_digits s)%nat -> Py.literal s = None.
Proof.
  intros Hlong. unfold Py.literal. apply Nat.ltb_lt in Hlong. now rewrite Hlong.
Qed.

Lemma count_digits_other (c : ascii) (rest : string) :
  Py.digit_val c = None ->
  Py.count_digits (String c rest) = Py.count_digits rest.
Proof. intros Hc. cbn [Py.count_digits]. now rewrite Hc. Qed.

(** [int] refuses a text with more digits than the limit, wherever its
    blanks, sign and underscores are. *)
Lemma int_over_limit (s : string) :
  (Py.int_max_str_digits < Py.count_digits s)%nat -> Py.int s = None.
Proof.
  intros Hlong. rewrite <- count_digits_strip in Hlong. unfold Py.int.
  destruct (Py.int_strip s) as [|c rest].
  - cbn [Py.count_digits] in Hlong. lia.
  - assert (Hwhole : Py.literal (String c rest) = None)
      by (now apply literal_over_limit).
    assert (Hsign : Py.digit_val c = None -> Py.literal rest = None).
    { intros Hc. apply literal_over_limit.
      now rewrite (count_digits_other c rest Hc) in Hlong. }
    destruct c as [[] [] [] [] [] [] [] []]; cbv beta iota;
      first [exact Hwhole
            | rewrite (Hsign eq_refl); reflexivity].
Qed.

Lemma rev_snoc (s : string) (c : ascii) :
  Py.rev (s ++ String c "") = String c (Py.rev s).
Proof.
  induction s as [|x rest IH]; simpl; [reflexivity|]. now rewrite IH.
Qed.

Lemma lstrip_snoc (s : string) (c : ascii) :
  Py.is_int_space c = false ->
  exists kept, Py.int_lstrip (s ++ String c "") = kept ++ String c "".
Proof.
  intros Hc. induction s as [|x rest IH]; simpl.
  - rewrite Hc. now exists "".
  - destruct (Py.is_int_space x).
    + exact IH.
    + now exists (String x rest).
Qed.

(** [int] refuses a text that begins with one of the separators 28..31:
    [str.split] takes them for spaces, [int] does not. *)
Lemma int_after_separator (c : ascii) (s : string) :
  Py.is_space c = true ->
  Py.is_int_space c = false ->
  Py.int (String c s) = None.
Proof.
  intros Hspace Hint. unfold Py.int, Py.int_strip.
  cbn [Py.int_lstrip]. rewrite Hint. cbn [Py.rev].
  destruct (lstrip_snoc (Py.rev s) c Hint) as [kept ->].
  rewrite rev_snoc.
  destruct c as [[] [] [] [] [] [] [] []];
    try discriminate Hspace; try discriminate Hint;
    cbv beta iota; unfold Py.literal;
    destruct (Nat.ltb Py.int_max_str_digits _); reflexivity.
Qed.

(** C5, as amended.  An argument that [int] does not accept makes the
    birthdays handler fail before the core operation is called: the
    outcome is the same error whatever the core operation is, and the
    command answers with the text of that error.  Among the arguments
    [int] does not accept are those with more digits than the limit of the
    interpreter and those that begin with a separator 28..31.  The sign is
    not looked at: the text of a negative integer is accepted and
    [get_birthdays_per_days] is called with it; it then finds no match, so
    the command answers "No contacts found". *)
Theorem birthdays_argument_check (days_str : string) (b : bot) :
  (Py.int days_str = None ->
   (forall core,
       birthdays_with core [days_str]
       = Raise (Build CommandOperationalError
                  "Command expects a valid integer - number of days, please recheck your input."))
   /\ birthdays today [days_str] b
      = (Return ("Command 'birthdays' failed: "
                 ++ "Command expects a valid integer - number of days, please recheck your input."),
         b))
  /\ (forall days,
        Py.int days_str = Some days ->
        (days < 0)%Z ->
        AddressBook.get_birthdays_per_days today (address_book b) days = []
        /\ birthdays today [days_str] b = (Return "No contacts found", b))
  /\ ((Py.int_max_str_digits < Py.count_digits days_str)%nat ->
      birthdays today [days_str] b
      = (Return ("Command 'birthdays' failed: "
                 ++ "Command expects a valid integer - number of days, please recheck your input."),
         b))
  /\ (forall separator,
        Py.is_space separator = true ->
        Py.is_int_space separator = false ->
        birthdays today [String separator days_str] b
        = (Return ("Command 'birthdays' failed: "
                   ++ "Command expects a valid integer - number of days, please recheck your input."),
           b)).
Proof.
  assert (Hfails : forall text,
             Py.int text = None ->
             birthdays today [text] b
             = (Return ("Command 'birthdays' failed: "
                        ++ "Command expects a valid integer - number of days, please recheck your input."),
                b)).
  { intros text Hint. unfold birthdays, input_error, birthdays_with.
    now rewrite Hint. }
  split; [|split; [|split]].
  - intros Hint. split.
    + intros core. unfold birthdays_with. now rewrite Hint.
    + now apply Hfails.
  - intros days Hint Hneg.
    pose proof (negative_window_empty today days (address_book b) Hneg) as Hempty.
    split; [exact Hempty|].
    unfold birthdays, input_error, birthdays_with. now rewrite Hint, Hempty.
  - intros Hlong. apply Hfails. now apply int_over_limit.
  - intros separator Hspace Hint. apply Hfails. now apply int_after_separator.
Qed.

End BirthdaysCommand.

Lemma birthdays_argument_check_witness :
  CliHelperBot.birthdays (D := Sample.datamodels) Sample.sunday ["soon"] Sample.empty
  = (Exn.Return ("Command 'birthdays' failed: "
                 ++ "Command expects a valid integer - number of days, please recheck your input."),
     Sample.empty)
  /\ CliHelperBot.birthdays (D := Sample.datamodels) Sample.sunday ["-5"] Sample.empty
     = (Exn.Return "No contacts found", Sample.empty)
  /\ CliHelperBot.birthdays (D := Sample.datamodels) Sample.sunday
       [String (ascii_of_nat 28) "-5"] Sample.empty
     = (Exn.Return ("Command 'birthdays' failed: "
                    ++ "Command expects a valid integer - number of days, please recheck your input."),
        Sample.empty).
Proof.
  split; [|split].
  - exact (proj2 (proj1 (birthdays_argument_check (D := Sample.datamodels)
                           Sample.sunday "soon" Sample.empty) eq_refl)).
  - exact (proj2 (proj1 (proj2 (birthdays_argument_check (D := Sample.datamodels)
                                  Sample.sunday "-5" Sample.empty))
                    (-5)%Z eq_refl eq_refl)).
  - exact (proj2 (proj2 (proj2 (birthdays_argument_check (D := Sample.datamodels)
                                  Sample.sunday "-5" Sample.empty)))
             (ascii_of_nat 28) eq_refl eq_refl).
Defined.

(** C5, the claim as it stands: ["-5"] is not the text of a non-negative
    integer, yet the birthdays handler does not fail on it; it calls the core
    operation, whose answer decides the outcome. *)
Lemma birthdays_accepts_negative_days :
  Py.int "-5" = Some (-5)%Z
  /\ CliHelperBot.execute_command (D := Sample.datamodels) Sample.sunday
       "birthdays" ["-5"] Sample.empty
     = (Exn.Return "No contacts found", Sample.empty)
  /\ CliHelperBot.birthdays_with (D := Sample.datamodels)
       (fun _ => [(Sample.sunday, [])]) ["-5"]
     <> CliHelperBot.birthdays_with (D := Sample.datamodels) (fun _ => []) ["-5"].
Proof.
  repeat split. discriminate.
Qed.

(** ** The phones of the records *)

Section Phones.

Import Exn CliHelperBot.

Context {D : Datamodels}.
Variable today : Calendar.date.












































Lemma lookup_in {A : Type} (key : string) (table : list (string * A)) (v : A) :
  lookup key table = Some v -> In (key, v) table.
Proof.
  induction table as [|[k x] rest IH]; simpl; [discriminate|].
  destruct (String.eqb_spec k key) as [->|Hne].
  - intros H. injection H as <-. now left.
  - intros H. right. now apply IH.
Qed.

Lemma find_append_new (book : AddressBook.t) (name_ : string) (r : Rec.t) :
  AddressBook.find book name_ = None ->
  AddressBook.find (book ++ [(name_, r)])%list name_ = Some r.
Proof.
  induction book as [|[k x] rest IH]; simpl.
  - now rewrite String.eqb_refl.
  - destruct (k =? name_)%string; [discriminate|]. exact IH.
Qed.


End Phones.



(** ** The decorators and the table of commands *)

Section Decorators.

Import Exn CliHelperBot Behaviour.

Context {D : Datamodels}.
Variable today : Calendar.date.

(** Splits on the innermost test of the goal; a test on what is left of the
    arguments is none of the handler's. *)
Ltac split_match :=
  match goal with
  | |- context [match ?x with _ => _ end] =>
      lazymatch x with
      | context [match _ with _ => _ end] => fail
      | _ =>
          tryif is_var x
          then lazymatch type of x with
               | list string => fail
               | _ => destruct x eqn:?
               end
          else destruct x eqn:?
      end
  end.

(** Unfolds a handler on arguments of every length up to four and splits on
    every test it makes. *)
Ltac run_handler args :=
  unfold stop, say_hello, add_birthday, add_contact, change_contact,
    show_birthday, search_contact, get_contact, birthdays, birthdays_with,
    print_all_contacts, add_address, add_email, add_note, delete_note,
    add_project_tasks, find_note, find_project_role, add_hobby, find_hobby,
    update_hobby, all_notes, delete_contact, delete_phone, delete_email,
    delete_address, delete_birthday, update_email, update_address,
    update_birthday;
  unfold input_error, bind, find_contact, find_note_or, on_contact, on_note,
    raise, ret, as_exception;
  destruct args as [|? [|? [|? [|? ?]]]]; simpl;
  repeat (split_match; simpl).

Lemma help_returns (args : list string) (b : bot) :
  exists s, help today args b = (Return s, b).
Proof.
  unfold help, ret.
  destruct (match args with
            | [] => None
            | first :: _ => if (first =? "")%string then None else Some first
            end) as [name_|]; [|eauto].
  destruct (lookup name_ (documentation today)); eauto.
Qed.

Lemma supported_commands_settled :
  Forall (fun entry => settled (call (snd entry))) (supported_commands today).
Proof.
  unfold supported_commands, commands_before_help.
  repeat (apply Forall_cons; [simpl|]); try apply Forall_nil.
  all: intros args b.
  31: { destruct (help_returns args b) as [s ->]. exact I. }
  all: run_handler args; auto.
Qed.

Lemma dispatch_to_handler
  (command_ : string) (args : list string) (b : bot) (h : command) :
  lookup command_ (supported_commands today) = Some h ->
  execute_command today command_ args b = call h args b.
Proof.
  intros Hlook. unfold execute_command, execute_command_in. rewrite Hlook.
  apply lookup_in in Hlook.
  pose proof (proj1 (Forall_forall _ _) supported_commands_settled _ Hlook args b)
    as Hsettled.
  simpl in Hsettled. unfold input_error.
  destruct (call h args b) as [[s|e] b']; simpl in *; [reflexivity|].
  now rewrite Hsettled.
Qed.

(** X1.  For a supported command [execute_command] is its handler: the
    decorator of [execute_command] never fires, because what a handler
    raises is caught by the handler's own decorator or is outside the four
    classes.  So the text "Command execution failed" answers unsupported
    commands only. *)
Theorem execute_command_is_the_handler
  (command_ : string) (args : list string) (b : bot) (h : command) :
  lookup command_ (supported_commands today) = Some h ->
  execute_command today command_ args b = call h args b.
Proof. exact (dispatch_to_handler command_ args b h). Qed.

Ltac listed_name := solve [simpl; repeat (first [left; reflexivity | right])].

Lemma supported_commands_answer :
  Forall (fun entry => In (fst entry) ["close"; "exit"; "update-phone"]
                       \/ answers (call (snd entry)))
         (supported_commands today).
Proof.
  unfold supported_commands, commands_before_help.
  repeat (apply Forall_cons; [first [left; listed_name | right; simpl] |]);
    try apply Forall_nil.
  all: intros args b.
  28: { destruct (help_returns args b) as [s ->]. eauto. }
  all: run_handler args; do 2 eexists; reflexivity.
Qed.

Lemma dispatch_answers
  (command_ : string) (args : list string) (b : bot) :
  ~ In command_ ["close"; "exit"; "update-phone"] ->
  exists s b', execute_command today command_ args b = (Return s, b').
Proof.
  intros Hother.
  destruct (lookup command_ (supported_commands today)) as [h|] eqn:Hlook.
  - rewrite (dispatch_to_handler _ args b _ Hlook).
    apply lookup_in in Hlook.
    destruct (proj1 (Forall_forall _ _) supported_commands_answer _ Hlook)
      as [Hname|Hanswers]; [contradiction|].
    apply Hanswers.
  - unfold execute_command, execute_command_in, input_error, raise.
    rewrite Hlook. simpl. do 2 eexists. reflexivity.
Qed.

(** X2.  Every command but close, exit and update-phone makes
    [execute_command] return a string, whatever the arguments and the
    books: no other handler lets an exception out. *)
Theorem execute_command_answers
  (command_ : string) (args : list string) (b : bot) :
  ~ In command_ ["close"; "exit"; "update-phone"] ->
  exists s b', execute_command today command_ args b = (Return s, b').
Proof. exact (dispatch_answers command_ args b). Qed.

(** X3.  The commands close and exit never return: with one argument they
    raise [CliHelperSigStop] carrying that argument, with none or with more
    than one the call of [stop] itself fails with [TypeError]; neither is
    caught, and the books are left as they are. *)
Theorem stop_always_raises (command_ : string) (args : list string) (b : bot) :
  command_ = "close" \/ command_ = "exit" ->
  exists e,
    execute_command today command_ args b = (Raise e, b)
    /\ caught (class_of e) = false
    /\ (forall message, args = [message] -> e = Build CliHelperSigStop message)
    /\ (List.length args <> 1%nat -> class_of e = TypeError).
Proof.
  intros [-> | ->].
  all: destruct args as [|message [|second rest]]; eexists;
    (split; [reflexivity|]); (split; [reflexivity|]); split;
    try discriminate; try (intros m Hm; now injection Hm as <-);
    simpl; intros; try reflexivity; try lia; try congruence.
Qed.

(** X4.  update-phone on a contact that has a phone: a phone the validator
    rejects is reported under the prefix of the handler and changes nothing;
    an accepted one takes the place of the first phone, the other phones and
    fields staying.  The lookup of the old phone inside [edit_phone] cannot
    fail, since the old phone is the first of the record. *)
Theorem update_phone_replaces_first_phone
  (username phone first : string) (others : list string)
  (b : bot) (record : Rec.t) :
  AddressBook.find (address_book b) username = Some record ->
  Rec.phones record = first :: others ->
  execute_command today "update-phone" [username; phone] b
  = match validate_phone phone with
    | inl msg => (Return ("Command 'update' failed: " ++ msg), b)
    | inr value =>
        (Return ("Contact " ++ username ++ " updated with phone: " ++ phone ++ "."),
         mk (AddressBook.store (address_book b) username
               (Rec.mk (Rec.name record) (value :: others) (Rec.birthday record)
                       (Rec.email record) (Rec.address record)))
            (notes_book b))
    end.
Proof.
  intros Hfind Hphones.
  rewrite (dispatch_to_handler "update-phone" _ b
             (def change_contact
                (docstring "Change contact in Address Book."
                   "args: List with username and phone of user to add.")) eq_refl).
  simpl. unfold change_contact, input_error, bind, find_contact, on_contact, ret,
    Rec.edit_phone.
  rewrite Hfind. simpl. rewrite Hphones. simpl.
  rewrite String.eqb_refl. simpl.
  destruct (validate_phone phone) as [msg|value]; reflexivity.
Qed.

End Decorators.

(** ** Which command changes what *)

Section Frames.

Import Exn CliHelperBot Behaviour.

Context {D : Datamodels}.
Variable today : Calendar.date.

Ltac split_match :=
  match goal with
  | |- context [match ?x with _ => _ end] =>
      lazymatch x with
      | context [match _ with _ => _ end] => fail
      | _ =>
          tryif is_var x
          then lazymatch type of x with
               | list string => fail
               | _ => destruct x eqn:?
               end
          else destruct x eqn:?
      end
  end.

Ltac run_handler args :=
  unfold stop, say_hello, add_birthday, add_contact, change_contact,
    show_birthday, search_contact, get_contact, birthdays, birthdays_with,
    print_all_contacts, add_address, add_email, add_note, delete_note,
    add_project_tasks, find_note, find_project_role, add_hobby, find_hobby,
    update_hobby, all_notes, delete_contact, delete_phone, delete_email,
    delete_address, delete_birthday, update_email, update_address,
    update_birthday;
  unfold input_error, bind, find_contact, find_note_or, on_contact, on_note,
    raise, ret, as_exception;
  destruct args as [|? [|? [|? [|? ?]]]]; simpl;
  repeat (split_match; simpl).

Ltac listed_name := solve [simpl; repeat (first [left; reflexivity | right])].

Ltac help_case args b :=
  let s := fresh "s" in
  let Hs := fresh "Hs" in
  destruct (help_returns today args b) as [s Hs]; rewrite Hs.

Lemma supported_commands_leave_contacts :
  Forall (fun entry => In (fst entry) contact_writers
                       \/ leaves_contacts (call (snd entry)))
         (supported_commands today).
Proof.
  unfold supported_commands, commands_before_help.
  repeat (apply Forall_cons; [first [left; listed_name | right; simpl] |]);
    try apply Forall_nil.
  all: intros args b.
  all: first [help_case args b; reflexivity | run_handler args; reflexivity].
Qed.

Lemma supported_commands_leave_notes :
  Forall (fun entry => In (fst entry) note_writers
                       \/ leaves_notes (call (snd entry)))
         (supported_commands today).
Proof.
  unfold supported_commands, commands_before_help.
  repeat (apply Forall_cons; [first [left; listed_name | right; simpl] |]);
    try apply Forall_nil.
  all: intros args b.
  all: first [help_case args b; reflexivity | run_handler args; reflexivity].
Qed.

Lemma unsupported_changes_nothing
  (command_ : string) (args : list string) (b : bot) :
  lookup command_ (supported_commands today) = None ->
  snd (execute_command today command_ args b) = b.
Proof.
  intros Hlook. unfold execute_command, execute_command_in, input_error, raise.
  now rewrite Hlook.
Qed.

(** X5.  Only the thirteen commands that write contacts (add, update-phone,
    the add-, delete- and update- commands of a contact's fields,
    delete-contact) can change the address book: every other command,
    supported or not, leaves it as it is, whatever its arguments. *)
Theorem address_book_changed_by_contact_commands_only
  (command_ : string) (args : list string) (b : bot) :
  ~ In command_ contact_writers ->
  address_book (snd (execute_command today command_ args b)) = address_book b.
Proof.
  intros Hother.
  destruct (lookup command_ (supported_commands today)) as [h|] eqn:Hlook.
  - rewrite (dispatch_to_handler today _ args b _ Hlook).
    apply lookup_in in Hlook.
    destruct (proj1 (Forall_forall _ _) supported_commands_leave_contacts _ Hlook)
      as [Hname|Hleaves]; [contradiction|].
    apply Hleaves.
  - now rewrite unsupported_changes_nothing.
Qed.

Lemma dispatch_leaves_notes
  (command_ : string) (args : list string) (b : bot) :
  ~ In command_ note_writers ->
  notes_book (snd (execute_command today command_ args b)) = notes_book b.
Proof.
  intros Hother.
  destruct (lookup command_ (supported_commands today)) as [h|] eqn:Hlook.
  - rewrite (dispatch_to_handler today _ args b _ Hlook).
    apply lookup_in in Hlook.
    destruct (proj1 (Forall_forall _ _) supported_commands_leave_notes _ Hlook)
      as [Hname|Hleaves]; [contradiction|].
    apply Hleaves.
  - now rewrite unsupported_changes_nothing.
Qed.

(** X6.  Only add-note, delete-note, add-project-tasks, add-hobby and
    update-hobby can change the notes book: every other command leaves it
    as it is. *)
Theorem notes_book_changed_by_note_commands_only
  (command_ : string) (args : list string) (b : bot) :
  ~ In command_ note_writers ->
  notes_book (snd (execute_command today command_ args b)) = notes_book b.
Proof. exact (dispatch_leaves_notes command_ args b). Qed.

Lemma store_names (book : AddressBook.t) (name_ : string) (r' : Rec.t) :
  AddressBook.get_all_names (AddressBook.store book name_ r')
  = AddressBook.get_all_names book.
Proof.
  induction book as [|[k r] rest IH]; simpl; [reflexivity|].
  destruct (k =? name_)%string; simpl; [reflexivity|]. now rewrite IH.
Qed.

Lemma supported_commands_keep_names :
  Forall (fun entry => In (fst entry) roster_writers
                       \/ keeps_names (call (snd entry)))
         (supported_commands today).
Proof.
  unfold supported_commands, commands_before_help.
  repeat (apply Forall_cons; [first [left; listed_name | right; simpl] |]);
    try apply Forall_nil.
  all: intros args b.
  all: first [help_case args b; reflexivity
             | run_handler args; first [reflexivity | apply store_names]].
Qed.

(** X7.  Only add and delete-contact change the names of the contacts: after
    any other command the address book holds the same names in the same
    order, so no command renames, adds or drops a contact on the side. *)
Theorem names_changed_by_add_and_delete_contact_only
  (command_ : string) (args : list string) (b : bot) :
  ~ In command_ roster_writers ->
  AddressBook.get_all_names (address_book (snd (execute_command today command_ args b)))
  = AddressBook.get_all_names (address_book b).
Proof.
  intros Hother.
  destruct (lookup command_ (supported_commands today)) as [h|] eqn:Hlook.
  - rewrite (dispatch_to_handler today _ args b _ Hlook).
    apply lookup_in in Hlook.
    destruct (proj1 (Forall_forall _ _) supported_commands_keep_names _ Hlook)
      as [Hname|Hkeeps]; [contradiction|].
    apply Hkeeps.
  - now rewrite unsupported_changes_nothing.
Qed.

Lemma found_entry (book : AddressBook.t) (name_ : string) (r : Rec.t) :
  AddressBook.find book name_ = Some r -> In (name_, r) book.
Proof.
  induction book as [|[k x] rest IH]; simpl; [discriminate|].
  destruct (String.eqb_spec k name_) as [->|Hne].
  - intros H. injection H as <-. now left.
  - intros H. right. now apply IH.
Qed.

Lemma found_note_entry (book : NotesBook.t) (name_ : string) (n : Note.t) :
  NotesBook.find book name_ = Some n -> In (name_, n) book.
Proof.
  induction book as [|[k x] rest IH]; simpl; [discriminate|].
  destruct (String.eqb_spec k name_) as [->|Hne].
  - intros H. injection H as <-. now left.
  - intros H. right. now apply IH.
Qed.

Lemma store_well_formed (book : AddressBook.t) (name_ : string) (r r' : Rec.t) :
  well_formed book ->
  AddressBook.find book name_ = Some r ->
  Rec.name r' = Rec.name r ->
  well_formed (AddressBook.store book name_ r').
Proof.
  intros [Hnodup Hnamed] Hfind Hname. split.
  - now rewrite store_names.
  - assert (Hkey : Rec.name r' = name_).
    { rewrite Hname. apply found_entry in Hfind.
      exact (proj1 (Forall_forall _ _) Hnamed _ Hfind). }
    clear Hfind Hnodup Hname.
    induction book as [|[k x] rest IH]; simpl; [constructor|].
    apply Forall_cons_iff in Hnamed as [Hx Hrest].
    destruct (String.eqb_spec k name_) as [->|Hne].
    + constructor; assumption.
    + constructor; [assumption|]. now apply IH.
Qed.

Lemma note_store_names (book : NotesBook.t) (name_ : string) (n' : Note.t) :
  map fst (NotesBook.store book name_ n') = map fst book.
Proof.
  induction book as [|[k n] rest IH]; simpl; [reflexivity|].
  destruct (k =? name_)%string; simpl; [reflexivity|]. now rewrite IH.
Qed.

Lemma note_store_well_formed
  (book : NotesBook.t) (name_ : string) (n n' : Note.t) :
  notes_well_formed book ->
  NotesBook.find book name_ = Some n ->
  Note.name n' = Note.name n ->
  notes_well_formed (NotesBook.store book name_ n').
Proof.
  intros [Hnodup Hnamed] Hfind Hname. split.
  - now rewrite note_store_names.
  - assert (Hkey : Note.name n' = name_).
    { rewrite Hname. apply found_note_entry in Hfind.
      exact (proj1 (Forall_forall _ _) Hnamed _ Hfind). }
    clear Hfind Hnodup Hname.
    induction book as [|[k x] rest IH]; simpl; [constructor|].
    apply Forall_cons_iff in Hnamed as [Hx Hrest].
    destruct (String.eqb_spec k name_) as [->|Hne].
    + constructor; assumption.
    + constructor; [assumption|]. now apply IH.
Qed.

Lemma append_well_formed (book : AddressBook.t) (r : Rec.t) :
  well_formed book ->
  AddressBook.find book (Rec.name r) = None ->
  well_formed (book ++ [(Rec.name r, r)])%list.
Proof.
  intros [Hnodup Hnamed] Hfind. apply find_none_iff in Hfind. split.
  - unfold AddressBook.get_all_names in *. rewrite map_app. simpl.
    apply NoDup_app; [assumption | repeat constructor; auto |].
    intros x Hx [<-|[]]. contradiction.
  - apply Forall_app. split; [assumption|]. now repeat constructor.
Qed.

Lemma note_append_well_formed (book : NotesBook.t) (n : Note.t) :
  notes_well_formed book ->
  NotesBook.find book (Note.name n) = None ->
  notes_well_formed (book ++ [(Note.name n, n)])%list.
Proof.
  intros [Hnodup Hnamed] Hfind. apply note_find_none_iff in Hfind. split.
  - rewrite map_app. simpl.
    apply NoDup_app; [assumption | repeat constructor; auto |].
    intros x Hx [<-|[]]. contradiction.
  - apply Forall_app. split; [assumption|]. now repeat constructor.
Qed.

Lemma remove_key_subset (book : AddressBook.t) (name_ x : string) :
  In x (AddressBook.get_all_names (AddressBook.remove_key book name_)) ->
  In x (AddressBook.get_all_names book).
Proof.
  induction book as [|[k r] rest IH]; simpl; [tauto|].
  destruct (k =? name_)%string; simpl; [tauto|]. intuition auto.
Qed.

Lemma remove_key_well_formed (book : AddressBook.t) (name_ : string) :
  well_formed book -> well_formed (AddressBook.remove_key book name_).
Proof.
  intros [Hnodup Hnamed]. split.
  - induction book as [|[k r] rest IH]; simpl in *; [constructor|].
    inversion Hnodup as [|? ? Hfresh Hrest]; subst.
    inversion Hnamed; subst.
    destruct (k =? name_)%string; simpl; [assumption|].
    constructor; [|now apply IH].
    intros Hin. apply Hfresh. eapply remove_key_subset. exact Hin.
  - induction book as [|[k r] rest IH]; simpl in *; [constructor|].
    inversion Hnamed; subst.
    destruct (k =? name_)%string; [assumption|].
    constructor; [assumption|]. apply IH; [|assumption].
    now inversion Hnodup.
Qed.

Lemma note_remove_key_subset (book : NotesBook.t) (name_ x : string) :
  In x (map fst (NotesBook.remove_key book name_)) -> In x (map fst book).
Proof.
  induction book as [|[k r] rest IH]; simpl; [tauto|].
  destruct (k =? name_)%string; simpl; [tauto|]. intuition auto.
Qed.

Lemma note_remove_key_well_formed (book : NotesBook.t) (name_ : string) :
  notes_well_formed book -> notes_well_formed (NotesBook.remove_key book name_).
Proof.
  intros [Hnodup Hnamed]. split.
  - induction book as [|[k r] rest IH]; simpl in *; [constructor|].
    inversion Hnodup as [|? ? Hfresh Hrest]; subst.
    inversion Hnamed; subst.
    destruct (k =? name_)%string; simpl; [assumption|].
    constructor; [|now apply IH].
    intros Hin. apply Hfresh. eapply note_remove_key_subset. exact Hin.
  - induction book as [|[k r] rest IH]; simpl in *; [constructor|].
    inversion Hnamed; subst.
    destruct (k =? name_)%string; [assumption|].
    constructor; [assumption|]. apply IH; [|assumption].
    now inversion Hnodup.
Qed.

(** The name of the record a method hands back is the name it was given. *)
Ltac same_name :=
  match goal with
  | H : _ = inr ?r' |- Rec.name ?r' = _ =>
      unfold Rec.update_birthday, Rec.update_email, Rec.update_address in H;
      unfold Rec.add_birthday, Rec.add_email, Rec.add_address, Rec.edit_phone,
        Rec.remove_phone in H;
      repeat match type of H with
             | context [match ?x with _ => _ end] => destruct x
             end;
      try discriminate; injection H as <-; reflexivity
  | H : Note.edit_hobby _ _ _ = Some ?n' |- Note.name ?n' = _ =>
      unfold Note.edit_hobby in H;
      repeat match type of H with
             | context [match ?x with _ => _ end] => destruct x
             end;
      try discriminate; injection H as <-; reflexivity
  | |- _ => reflexivity
  end.

Lemma add_contact_keeps_well_formed : keeps_well_formed add_contact.
Proof.
  intros args b [Hbook Hnotes]. unfold add_contact, input_error.
  destruct args as [|username [|phone [|third rest]]]; try (split; assumption).
  unfold Rec.create, AddressBook.add_record. simpl.
  destruct (validate_phone phone) as [msg|v]; simpl; [split; assumption|].
  destruct (AddressBook.find (address_book b) username) eqn:Hfind; simpl;
    [split; assumption|].
  split; [|assumption]. simpl.
  exact (append_well_formed _ (Rec.mk username [v] None None None) Hbook Hfind).
Qed.

Lemma delete_contact_keeps_well_formed : keeps_well_formed delete_contact.
Proof.
  intros args b [Hbook Hnotes]. unfold delete_contact, input_error.
  destruct args as [|username [|second rest]]; try (split; assumption).
  unfold AddressBook.delete.
  destruct (AddressBook.find (address_book b) username); simpl;
    [|split; assumption].
  split; [|assumption]. now apply remove_key_well_formed.
Qed.

Lemma add_note_keeps_well_formed : keeps_well_formed add_note.
Proof.
  intros args b [Hbook Hnotes]. unfold add_note, input_error.
  destruct args as [|name_ [|role [|third rest]]]; try (split; assumption).
  unfold NotesBook.add_note. simpl.
  destruct (NotesBook.find (notes_book b) name_) eqn:Hfind; simpl;
    [split; assumption|].
  split; [assumption|]. simpl.
  exact (note_append_well_formed _ (Note.create name_ role) Hnotes Hfind).
Qed.

Lemma delete_note_keeps_well_formed : keeps_well_formed delete_note.
Proof.
  intros args b [Hbook Hnotes]. unfold delete_note, input_error.
  destruct args as [|name_ [|second rest]]; try (split; assumption).
  unfold NotesBook.delete.
  destruct (NotesBook.find (notes_book b) name_); simpl;
    [|split; assumption].
  split; [assumption|]. now apply note_remove_key_well_formed.
Qed.

Lemma supported_commands_keep_well_formed :
  Forall (fun entry => keeps_well_formed (call (snd entry)))
         (supported_commands today).
Proof.
  unfold supported_commands, commands_before_help.
  repeat (apply Forall_cons; [simpl|]); try apply Forall_nil.
  all: try first [exact add_contact_keeps_well_formed
                 | exact delete_contact_keeps_well_formed
                 | exact add_note_keeps_well_formed
                 | exact delete_note_keeps_well_formed].
  all: intros args b Hwf.
  all: first [help_case args b; exact Hwf | idtac].
  all: pose proof Hwf as [Hbook Hnotes].
  all: run_handler args.
  all: first [exact Hwf
             | split; simpl;
               [eapply store_well_formed; [eassumption|eassumption|same_name]
               |assumption]
             | split; simpl;
               [assumption
               |eapply note_store_well_formed;
                  [eassumption|eassumption|same_name]]].
Qed.

(** X8.  No command breaks the shape of the books: if no name occurs twice
    and every record and note is kept under its own name, this holds again
    after [execute_command], for every command and all arguments. *)
Theorem execute_command_keeps_books_well_formed
  (command_ : string) (args : list string) (b : bot) :
  bot_well_formed b ->
  bot_well_formed (snd (execute_command today command_ args b)).
Proof.
  intros Hwf.
  destruct (lookup command_ (supported_commands today)) as [h|] eqn:Hlook.
  - rewrite (dispatch_to_handler today _ args b _ Hlook).
    apply lookup_in in Hlook.
    exact (proj1 (Forall_forall _ _) supported_commands_keep_well_formed
             _ Hlook args b Hwf).
  - now rewrite unsupported_changes_nothing.
Qed.

End Frames.

(** ** Adding, looking up and deleting *)

Section RoundTrips.

Import Exn CliHelperBot Behaviour.

Context {D : Datamodels}.
Variable today : Calendar.date.

Lemma remove_appended (book : AddressBook.t) (name_ : string) (r : Rec.t) :
  AddressBook.find book name_ = None ->
  AddressBook.remove_key (book ++ [(name_, r)])%list name_ = book.
Proof.
  induction book as [|[k x] rest IH]; simpl.
  - now rewrite String.eqb_refl.
  - destruct (k =? name_)%string; [discriminate|].
    intros Hfind. now rewrite IH.
Qed.

Lemma note_find_appended (book : NotesBook.t) (name_ : string) (n : Note.t) :
  NotesBook.find book name_ = None ->
  NotesBook.find (book ++ [(name_, n)])%list name_ = Some n.
Proof.
  induction book as [|[k x] rest IH]; simpl.
  - now rewrite String.eqb_refl.
  - destruct (k =? name_)%string; [discriminate|]. exact IH.
Qed.

Lemma note_remove_appended (book : NotesBook.t) (name_ : string) (n : Note.t) :
  NotesBook.find book name_ = None ->
  NotesBook.remove_key (book ++ [(name_, n)])%list name_ = book.
Proof.
  induction book as [|[k x] rest IH]; simpl.
  - now rewrite String.eqb_refl.
  - destruct (k =? name_)%string; [discriminate|].
    intros Hfind. now rewrite IH.
Qed.

(** X9.  Adding a contact under a new name with a phone the validator
    accepts succeeds and appends a record holding that one phone and nothing
    else; the phone command then shows this record, and delete-contact gives
    back the very bot there was before the add. *)
Theorem add_phone_delete_contact_round_trip
  (username phone value : string) (b : bot) :
  AddressBook.find (address_book b) username = None ->
  validate_phone phone = inr value ->
  let record := Rec.mk username [value] None None None in
  let added := mk (address_book b ++ [(username, record)])%list (notes_book b) in
  execute_command today "add" [username; phone] b
  = (Return ("Contact " ++ username ++ " created with phone: " ++ phone ++ "."),
     added)
  /\ execute_command today "phone" [username] added
     = (Return ("Record found: " ++ Py.nl ++ str_record record), added)
  /\ execute_command today "delete-contact" [username] added
     = (Return ("Contact " ++ username ++ " removed from Address book."), b).
Proof.
  intros Hfind Hvalid record added.
  rewrite (dispatch_to_handler today "add" _ b _ eq_refl).
  rewrite (dispatch_to_handler today "phone" _ added _ eq_refl).
  rewrite (dispatch_to_handler today "delete-contact" _ added _ eq_refl).
  simpl call.
  assert (Hadded : AddressBook.find (address_book added) username = Some record)
    by (apply find_append_new; exact Hfind).
  repeat split.
  - unfold add_contact, input_error, Rec.create, AddressBook.add_record. simpl.
    rewrite Hvalid. simpl. now rewrite Hfind.
  - unfold get_contact, input_error, bind, find_contact, ret.
    now rewrite Hadded.
  - unfold delete_contact, input_error, AddressBook.delete.
    rewrite Hadded. simpl. rewrite (remove_appended _ _ _ Hfind).
    now destruct b.
Qed.

(** X10.  Adding a note under a new name succeeds and appends a note with the
    given role, no tasks and no hobbies; find-note then shows it, and
    delete-note gives back the bot there was before. *)
Theorem add_find_delete_note_round_trip
  (name_ project_role : string) (b : bot) :
  NotesBook.find (notes_book b) name_ = None ->
  let note := Note.mk name_ project_role "" [] in
  let added := mk (address_book b) (notes_book b ++ [(name_, note)])%list in
  execute_command today "add-note" [name_; project_role] b
  = (Return ("Created note " ++ name_ ++ " " ++ project_role ++ "."), added)
  /\ execute_command today "find-note" [name_] added
     = (Return ("Found note: " ++ str_note note), added)
  /\ execute_command today "delete-note" [name_] added
     = (Return ("Note " ++ name_ ++ " removed from Notes book."), b).
Proof.
  intros Hfind note added.
  rewrite (dispatch_to_handler today "add-note" _ b _ eq_refl).
  rewrite (dispatch_to_handler today "find-note" _ added _ eq_refl).
  rewrite (dispatch_to_handler today "delete-note" _ added _ eq_refl).
  simpl call.
  assert (Hadded : NotesBook.find (notes_book added) name_ = Some note)
    by (apply note_find_appended; exact Hfind).
  repeat split.
  - unfold add_note, input_error, NotesBook.add_note, Note.create. simpl.
    now rewrite Hfind.
  - unfold find_note, input_error. now rewrite Hadded.
  - unfold delete_note, input_error, NotesBook.delete.
    rewrite Hadded. simpl. rewrite (note_remove_appended _ _ _ Hfind).
    now destruct b.
Qed.

Lemma removed_key_not_found (book : AddressBook.t) (name_ : string) :
  NoDup (AddressBook.get_all_names book) ->
  AddressBook.find (AddressBook.remove_key book name_) name_ = None.
Proof.
  induction book as [|[k x] rest IH]; simpl; [reflexivity|].
  intros Hnodup. inversion Hnodup as [|? ? Hfresh Hrest]; subst.
  destruct (String.eqb_spec k name_) as [->|Hne]; simpl.
  - now apply find_none_iff.
  - apply String.eqb_neq in Hne. rewrite Hne. now apply IH.
Qed.

(** X11.  In a book where no name occurs twice, a contact that delete-contact
    removed is gone: the phone command and a second delete-contact both
    answer that the user does not exist, and change nothing. *)
Theorem deleted_contact_is_gone (username : string) (b : bot) (record : Rec.t) :
  NoDup (AddressBook.get_all_names (address_book b)) ->
  AddressBook.find (address_book b) username = Some record ->
  let deleted := mk (AddressBook.remove_key (address_book b) username)
                    (notes_book b) in
  execute_command today "delete-contact" [username] b
  = (Return ("Contact " ++ username ++ " removed from Address book."), deleted)
  /\ execute_command today "phone" [username] deleted
     = (Return ("Command 'phone' failed: user with username " ++ username
                ++ " doesn't exist. Try another username."),
        deleted)
  /\ execute_command today "delete-contact" [username] deleted
     = (Return ("Command 'delete-contact' failed: user with username "
                ++ username ++ " doesn't exist. "),
        deleted).
Proof.
  intros Hnodup Hfind deleted.
  rewrite (dispatch_to_handler today "delete-contact" _ b _ eq_refl).
  rewrite (dispatch_to_handler today "phone" _ deleted _ eq_refl).
  rewrite (dispatch_to_handler today "delete-contact" _ deleted _ eq_refl).
  simpl call.
  assert (Hgone : AddressBook.find (address_book deleted) username = None)
    by (apply removed_key_not_found; exact Hnodup).
  repeat split.
  - unfold delete_contact, input_error, AddressBook.delete. now rewrite Hfind.
  - unfold get_contact, input_error, bind, find_contact. now rewrite Hgone.
  - unfold delete_contact, input_error, AddressBook.delete. now rewrite Hgone.
Qed.

(** X17.  add-birthday on an existing contact with a date the parser accepts
    stores the date, and show-birthday then prints it; delete-birthday clears
    it, and show-birthday prints [None].  A date the parser rejects is
    reported under the prefix of add-birthday and changes nothing. *)
Theorem birthday_round_trip
  (username date_str : string) (b : bot) (record : Rec.t) :
  AddressBook.find (address_book b) username = Some record ->
  match parse_date date_str with
  | inl msg =>
      execute_command today "add-birthday" [username; date_str] b
      = (Return ("Command 'add-birthday' failed: " ++ msg), b)
  | inr date =>
      let dated :=
        mk (AddressBook.store (address_book b) username
              (Rec.mk (Rec.name record) (Rec.phones record) (Some date)
                      (Rec.email record) (Rec.address record)))
           (notes_book b) in
      let cleared :=
        mk (AddressBook.store (address_book b) username
              (Rec.mk (Rec.name record) (Rec.phones record) None
                      (Rec.email record) (Rec.address record)))
           (notes_book b) in
      execute_command today "add-birthday" [username; date_str] b
      = (Return ("Contact " ++ username ++ " updated with date: " ++ date_str ++ "."),
         dated)
      /\ execute_command today "show-birthday" [username] dated
         = (Return ("User's " ++ username ++ " birthday is: " ++ str_date date),
            dated)
      /\ execute_command today "delete-birthday" [username] dated
         = (Return ("Birthday of contact " ++ username ++ " removed from Address book."),
            cleared)
      /\ execute_command today "show-birthday" [username] cleared
         = (Return ("User's " ++ username ++ " birthday is: None"), cleared)
  end.
Proof.
  intros Hfind.
  rewrite !(dispatch_to_handler today "add-birthday" _ _ _ eq_refl).
  simpl call.
  destruct (parse_date date_str) as [msg|date] eqn:Hdate.
  - unfold add_birthday, input_error, bind, find_contact, on_contact, ret,
      Rec.add_birthday.
    rewrite Hfind. simpl. now rewrite Hdate.
  - intros dated cleared.
    rewrite !(dispatch_to_handler today "show-birthday" _ _ _ eq_refl).
    rewrite (dispatch_to_handler today "delete-birthday" _ dated _ eq_refl).
    simpl call.
    assert (Hdated : AddressBook.find (address_book dated) username
                     = Some (Rec.mk (Rec.name record) (Rec.phones record)
                                    (Some date) (Rec.email record)
                                    (Rec.address record)))
      by (eapply find_store_same; exact Hfind).
    assert (Hcleared : AddressBook.find (address_book cleared) username
                       = Some (Rec.mk (Rec.name record) (Rec.phones record)
                                      None (Rec.email record)
                                      (Rec.address record)))
      by (eapply find_store_same; exact Hfind).
    repeat split.
    + unfold add_birthday, input_error, bind, find_contact, on_contact, ret,
        Rec.add_birthday.
      rewrite Hfind. simpl. now rewrite Hdate.
    + unfold show_birthday, input_error, bind, find_contact, ret.
      now rewrite Hdated.
    + unfold delete_birthday, input_error, bind, find_contact, on_contact, ret.
      rewrite Hdated. simpl. now rewrite store_store.
    + unfold show_birthday, input_error, bind, find_contact, ret.
      now rewrite Hcleared.
Qed.

(** X18.  add-project-tasks takes the name of a note and at least two more
    words: with two arguments or fewer it answers that it expects two
    arguments and changes nothing; with more, for an existing note, the
    words after the name, joined by single spaces, are appended to the tasks
    of the note. *)
Theorem add_project_tasks_needs_two_words (args : list string) (b : bot) :
  ((List.length args <= 2)%nat ->
   execute_command today "add-project-tasks" args b
   = (Return ("Command 'add-project-tasks' failed: "
              ++ "command expects an input of two arguments: name and project tasks string, separated by a space. "
              ++ "Received: " ++ Py.join " " args),
      b))
  /\ (forall name_ first second more note,
        args = name_ :: first :: second :: more ->
        NotesBook.find (notes_book b) name_ = Some note ->
        execute_command today "add-project-tasks" args b
        = (Return ("Note " ++ name_ ++ " updated"),
           mk (address_book b)
              (NotesBook.store (notes_book b) name_
                 (Note.add_project_tasks note
                    (Py.join " " (first :: second :: more)))))).
Proof.
  rewrite (dispatch_to_handler today "add-project-tasks" _ b _ eq_refl).
  simpl call. split.
  - intros Hshort. unfold add_project_tasks, input_error, raise.
    destruct args as [|name_ [|first [|second more]]]; try reflexivity.
    simpl in Hshort. lia.
  - intros name_ first second more note -> Hfind.
    unfold add_project_tasks, input_error, bind, find_note_or, on_note, ret.
    now rewrite Hfind.
Qed.

End RoundTrips.

(** ** The prompt: [parse_input] and [main] *)

Section Prompt.

Import Exn CliHelperBot Behaviour.

Context {D : Datamodels}.
Variable today : Calendar.date.

Lemma has_space_app (s t : string) :
  has_space (s ++ t) = (has_space s || has_space t)%bool.
Proof.
  induction s as [|c rest IH]; simpl; [reflexivity|].
  now rewrite IH, orb_assoc.
Qed.

Lemma split_from_words (s acc : string) :
  has_space acc = false -> Forall word (Py.split_from acc s).
Proof.
  revert acc. induction s as [|c rest IH]; intros acc Hacc; simpl.
  - destruct (String.eqb_spec acc ""); [constructor|].
    repeat constructor; assumption.
  - destruct (Py.is_space c) eqn:Hc.
    + destruct (String.eqb_spec acc "").
      * now apply IH.
      * constructor; [split; assumption|]. now apply IH.
    + apply IH. rewrite has_space_app. simpl. now rewrite Hacc, Hc.
Qed.

Lemma split_from_started (s acc : string) :
  acc <> "" -> Py.split_from acc s <> [].
Proof.
  revert acc. induction s as [|c rest IH]; intros acc Hacc; simpl.
  - destruct (String.eqb_spec acc ""); [contradiction|discriminate].
  - destruct (Py.is_space c).
    + destruct (String.eqb_spec acc ""); [contradiction|discriminate].
    + apply IH. now destruct acc.
Qed.

Lemma split_not_blank (s acc : string) :
  Py.blank s = false -> Py.split_from acc s <> [].
Proof.
  revert acc. induction s as [|c rest IH]; intros acc; simpl; [discriminate|].
  destruct (Py.is_space c); simpl.
  - intros Hrest. destruct (String.eqb_spec acc ""); [now apply IH|discriminate].
  - intros _. apply split_from_started. now destruct acc.
Qed.

Lemma lower_ascii_twice (c : ascii) :
  Py.lower_ascii (Py.lower_ascii c) = Py.lower_ascii c.
Proof. destruct c as [[] [] [] [] [] [] [] []]; reflexivity. Qed.

Lemma lower_ascii_space (c : ascii) :
  Py.is_space (Py.lower_ascii c) = Py.is_space c.
Proof. destruct c as [[] [] [] [] [] [] [] []]; reflexivity. Qed.

Lemma casefold_twice (s : string) : Py.casefold (Py.casefold s) = Py.casefold s.
Proof.
  induction s as [|c rest IH]; simpl; [reflexivity|].
  now rewrite lower_ascii_twice, IH.
Qed.

Lemma casefold_word (s : string) : word s -> word (Py.casefold s).
Proof.
  intros [Hne Hsp]. split.
  - destruct s; [contradiction|discriminate].
  - clear Hne. induction s as [|c rest IH]; simpl in *; [reflexivity|].
    rewrite lower_ascii_space.
    apply orb_false_iff in Hsp as [Hc Hrest].
    now rewrite Hc, IH.
Qed.

Lemma parse_input_words (user_input : string) :
  (Py.blank user_input = false ->
   exists command_ args, parse_input user_input = Return (command_, args))
  /\ (forall command_ args,
        parse_input user_input = Return (command_, args) ->
        Py.blank user_input = false
        /\ word command_
        /\ Py.casefold command_ = command_
        /\ (command_ = "close" \/ command_ = "exit" ->
            args = [farewell command_])
        /\ (command_ <> "close" -> command_ <> "exit" -> Forall word args)).
Proof.
  unfold parse_input, Py.split.
  pose proof (split_from_words user_input "" eq_refl) as Hwords.
  split.
  - intros Hblank. pose proof (split_not_blank user_input "" Hblank) as Hsome.
    destruct (Py.split_from "" user_input) as [|first rest]; [contradiction|].
    destruct ((Py.casefold first =? "close") || (Py.casefold first =? "exit"))%bool;
      eauto.
  - intros command_ args.
    destruct (Py.split_from "" user_input) as [|first rest] eqn:Hsplit;
      [discriminate|].
    apply Forall_cons_iff in Hwords as [Hfirst Hrest].
    assert (Hblank : Py.blank user_input = false).
    { destruct (Py.blank user_input) eqn:Hb; [|reflexivity].
      rewrite (split_blank _ Hb) in Hsplit. discriminate. }
    destruct (String.eqb_spec (Py.casefold first) "close") as [Hclose|Hclose];
      [|destruct (String.eqb_spec (Py.casefold first) "exit") as [Hexit|Hexit]];
      simpl; intros H; injection H as <- <-;
      (split; [exact Hblank|]);
      (split; [now apply casefold_word|]);
      (split; [apply casefold_twice|]); split; auto; tauto.
Qed.

(** X12.  [parse_input] returns a pair exactly for the lines that are not
    blank.  The command it returns is a word (not empty, no space in it) in
    lower case; every argument is a word too, but for close and exit, whose
    arguments are replaced by the one farewell text.  So no handler ever
    gets an empty argument from the prompt. *)
Theorem parse_input_gives_words (user_input : string) :
  (Py.blank user_input = false ->
   exists command_ args, parse_input user_input = Return (command_, args))
  /\ (forall command_ args,
        parse_input user_input = Return (command_, args) ->
        Py.blank user_input = false
        /\ word command_
        /\ Py.casefold command_ = command_
        /\ (command_ = "close" \/ command_ = "exit" ->
            args = [farewell command_])
        /\ (command_ <> "close" -> command_ <> "exit" -> Forall word args)).
Proof. exact (parse_input_words user_input). Qed.

(** X13.  [main] takes the lines in order and hands the books from one to
    the next: on a list of lines followed by more, it goes through the first
    list and, if that does not end the loop, goes on with the others from
    the bot reached, printing after what was printed; once the loop has
    ended by [break] or by an exception no later line is read. *)
Theorem main_takes_lines_in_order (first_lines more_lines : list string) (b : bot) :
  main today (first_lines ++ more_lines) b
  = match main today first_lines b with
    | (printed, Prompting, b') =>
        let '(printed', e, b'') := main today more_lines b' in
        ((printed ++ printed')%list, e, b'')
    | stopped => stopped
    end.
Proof.
  revert b. induction first_lines as [|line rest IH]; intros b.
  - simpl. now destruct (main today more_lines b) as [[printed e] b'].
  - cbn [main app].
    destruct (turn today line b) as [[out|e] b1].
    + rewrite IH.
      destruct (main today rest b1) as [[printed e] b2].
      destruct e; try reflexivity.
      now destruct (main today more_lines b2) as [[printed' e'] b3].
    + now destruct (class_of e).
Qed.

Lemma change_contact_raises
  (args : list string) (b b' : bot) (e : Exn.t) :
  change_contact args b = (Raise e, b') ->
  b' = b
  /\ e = Build IndexError "list index out of range"
  /\ exists username phone record,
       args = [username; phone]
       /\ AddressBook.find (address_book b) username = Some record
       /\ Rec.phones record = [].
Proof.
  unfold change_contact, input_error, bind, find_contact, on_contact, raise, ret,
    as_exception.
  destruct args as [|username [|phone [|third rest]]]; simpl; try discriminate.
  destruct (AddressBook.find (address_book b) username) as [record|] eqn:Hfind;
    simpl; [|discriminate].
  destruct (Rec.phones record) as [|first others] eqn:Hphones; simpl.
  - intros H. injection H as <- <-.
    split; [reflexivity|]. split; [reflexivity|].
    exists username, phone, record. auto.
  - destruct (Rec.edit_phone validate_phone phone_not_found record first phone)
      as [[msg|msg]|record']; simpl; discriminate.
Qed.

(** X14.  A line whose first word is close or exit, in any case of letters
    and with anything after it, ends [main] by [break]: the farewell text is
    all that is printed, the books are as they were, and no later line is
    read. *)
Theorem close_and_exit_end_main
  (line first : string) (rest later : list string) (b : bot) :
  Py.split line = first :: rest ->
  Py.casefold first = "close" \/ Py.casefold first = "exit" ->
  main today (line :: later) b = ([farewell (Py.casefold first)], Break, b).
Proof.
  intros Hsplit Hstop. cbn [main]. unfold turn, parse_input. rewrite Hsplit.
  destruct Hstop as [-> | ->]; reflexivity.
Qed.

(** X15.  What one line does to [main].  The loop ends by [break] only for
    close and exit.  It ends by an exception only in two cases: a blank
    line ([ValueError] from [parse_input]) and update-phone, given a name and
    a phone, for a contact that has no phone ([IndexError]); the notice
    printed carries the text of the exception.  In all these cases the books
    are as they were.  Every other line is answered and the loop goes on. *)
Theorem main_one_line (line : string) (b : bot) :
  match main today [line] b with
  | (printed, Prompting, b') => exists answer, printed = [answer]
  | (printed, Break, b') =>
      b' = b
      /\ exists first rest,
           Py.split line = first :: rest
           /\ (Py.casefold first = "close" \/ Py.casefold first = "exit")
           /\ printed = [farewell (Py.casefold first)]
  | (printed, Reraised e, b') =>
      b' = b
      /\ printed = ["Unknown exception was encountered during execution: "
                    ++ str e ++ "The bot will stop ..."]
      /\ ((Py.blank line = true
           /\ e = Build ValueError
                    "not enough values to unpack (expected at least 1, got 0)")
          \/ (exists first username phone record,
                Py.split line = [first; username; phone]
                /\ Py.casefold first = "update-phone"
                /\ AddressBook.find (address_book b) username = Some record
                /\ Rec.phones record = []
                /\ e = Build IndexError "list index out of range"))
  end.
Proof.
  cbn [main]. unfold turn, parse_input.
  destruct (Py.split line) as [|first rest] eqn:Hsplit.
  - simpl. repeat split. left. split; [|reflexivity].
    destruct (Py.blank line) eqn:Hblank; [reflexivity|].
    exfalso. exact (split_not_blank line "" Hblank Hsplit).
  - destruct (String.eqb_spec (Py.casefold first) "close") as [Hclose|Hclose].
    { rewrite Hclose. simpl. split; [reflexivity|].
      exists first, rest. rewrite Hclose. auto. }
    destruct (String.eqb_spec (Py.casefold first) "exit") as [Hexit|Hexit].
    { rewrite Hexit. simpl. split; [reflexivity|].
      exists first, rest. rewrite Hexit. auto. }
    simpl.
    destruct (String.eqb_spec (Py.casefold first) "update-phone") as [Hupdate|Hupdate].
    + rewrite Hupdate.
      rewrite (dispatch_to_handler today "update-phone" _ b _ eq_refl).
      simpl call.
      destruct (change_contact rest b) as [[answer|e] b'] eqn:Hrun.
      * eexists. reflexivity.
      * destruct (change_contact_raises _ _ _ _ Hrun)
          as [-> [-> [username [phone [record [-> [Hfind Hphones]]]]]]].
        simpl. repeat split. right.
        exists first, username, phone, record. repeat split; assumption.
    + destruct (dispatch_answers today (Py.casefold first) rest b)
        as [answer [b' Hrun]].
      { simpl. intuition congruence. }
      rewrite Hrun. eexists. reflexivity.
Qed.

End Prompt.

(** ** Hobbies at the prompt *)

Section Hobbies.

Import Exn CliHelperBot Behaviour.

Context {D : Datamodels}.
Variable today : Calendar.date.

Lemma found_note_spaced (book : NotesBook.t) (name_ : string) (n : Note.t) :
  hobbies_spaced book ->
  NotesBook.find book name_ = Some n ->
  Forall (fun hobby => has_space hobby = true) (Note.hobbies n).
Proof.
  intros Hall Hfind. apply found_note_entry in Hfind.
  exact (proj1 (Forall_forall _ _) Hall _ Hfind).
Qed.

Lemma store_spaced (book : NotesBook.t) (name_ : string) (n' : Note.t) :
  hobbies_spaced book ->
  Forall (fun hobby => has_space hobby = true) (Note.hobbies n') ->
  hobbies_spaced (NotesBook.store book name_ n').
Proof.
  intros Hall Hn'. induction book as [|[k n] rest IH]; simpl; [constructor|].
  apply Forall_cons_iff in Hall as [Hn Hrest].
  destruct (k =? name_)%string; apply Forall_cons; simpl; auto.
  now apply IH.
Qed.

Lemma remove_key_spaced (book : NotesBook.t) (name_ : string) :
  hobbies_spaced book -> hobbies_spaced (NotesBook.remove_key book name_).
Proof.
  intros Hall. induction book as [|[k n] rest IH]; simpl; [constructor|].
  apply Forall_cons_iff in Hall as [Hn Hrest].
  destruct (k =? name_)%string; [assumption|].
  apply Forall_cons; [exact Hn|]. now apply IH.
Qed.

(** A word is none of the hobbies that have a space. *)
Lemma word_not_among_spaced (hobby : string) (hobbies : list string) :
  has_space hobby = false ->
  Forall (fun h => has_space h = true) hobbies ->
  existsb (String.eqb hobby) hobbies = false.
Proof.
  intros Hword Hall. induction Hall as [|h rest Hh Hrest IH]; simpl; [reflexivity|].
  destruct (String.eqb_spec hobby h) as [->|Hne]; [congruence|exact IH].
Qed.

Lemma find_hobby_word (book : NotesBook.t) (hobby : string) :
  has_space hobby = false ->
  hobbies_spaced book ->
  NotesBook.find_hobby book hobby = [].
Proof.
  intros Hword Hall. unfold NotesBook.find_hobby, NotesBook.values.
  induction book as [|[k n] rest IH]; simpl; [reflexivity|].
  apply Forall_cons_iff in Hall as [Hn Hrest]. simpl in Hn.
  rewrite (word_not_among_spaced _ _ Hword Hn). now apply IH.
Qed.

Lemma joined_words_spaced (first second : string) (more : list string) :
  has_space (Py.join " " (first :: second :: more)) = true.
Proof.
  unfold Py.join.
  change (String.concat " " (first :: second :: more))
    with (first ++ " " ++ String.concat " " (second :: more)).
  rewrite has_space_app. simpl. apply orb_true_r.
Qed.

(** The five commands that write notes, on arguments that are words. *)
Lemma note_command_keeps_spaced
  (command_ : string) (args : list string) (b : bot) :
  In command_ note_writers ->
  Forall word args ->
  hobbies_spaced (notes_book b) ->
  hobbies_spaced (notes_book (snd (execute_command today command_ args b))).
Proof.
  intros Hwriter Hwords Hall. simpl in Hwriter.
  destruct Hwriter as [<-|[<-|[<-|[<-|[<-|[]]]]]].
  - rewrite (dispatch_to_handler today "add-note" _ b _ eq_refl). simpl call.
    unfold add_note, input_error, NotesBook.add_note.
    destruct args as [|name_ [|role [|third rest]]]; try exact Hall. simpl.
    destruct (NotesBook.find (notes_book b) name_); simpl; [exact Hall|].
    apply Forall_app. split; [exact Hall|]. repeat constructor.
  - rewrite (dispatch_to_handler today "delete-note" _ b _ eq_refl). simpl call.
    unfold delete_note, input_error, NotesBook.delete.
    destruct args as [|name_ [|second rest]]; try exact Hall.
    destruct (NotesBook.find (notes_book b) name_); simpl; [|exact Hall].
    now apply remove_key_spaced.
  - rewrite (dispatch_to_handler today "add-project-tasks" _ b _ eq_refl).
    simpl call.
    unfold add_project_tasks, input_error, bind, find_note_or, on_note, ret.
    destruct args as [|name_ [|t1 [|t2 rest]]]; try exact Hall.
    destruct (NotesBook.find (notes_book b) name_) as [note|] eqn:Hfind; simpl;
      [|exact Hall].
    apply store_spaced; [exact Hall|]. simpl.
    exact (found_note_spaced _ _ _ Hall Hfind).
  - rewrite (dispatch_to_handler today "add-hobby" _ b _ eq_refl). simpl call.
    unfold add_hobby, input_error, bind, find_note_or, on_note, ret.
    destruct args as [|name_ [|h1 [|h2 rest]]]; try exact Hall.
    destruct (NotesBook.find (notes_book b) name_) as [note|] eqn:Hfind; simpl;
      [|exact Hall].
    apply store_spaced; [exact Hall|]. simpl.
    apply Forall_app. split; [exact (found_note_spaced _ _ _ Hall Hfind)|].
    constructor; [|constructor]. apply joined_words_spaced.
  - rewrite (dispatch_to_handler today "update-hobby" _ b _ eq_refl). simpl call.
    unfold update_hobby, input_error, bind, find_note_or, on_note, ret, raise,
      Note.edit_hobby.
    destruct args as [|name_ [|old [|new [|fourth rest]]]]; try exact Hall.
    destruct (NotesBook.find (notes_book b) name_) as [note|] eqn:Hfind; simpl;
      [|exact Hall].
    apply Forall_cons_iff in Hwords as [_ Hwords].
    apply Forall_cons_iff in Hwords as [[_ Hold] _].
    rewrite (word_not_among_spaced _ _ Hold (found_note_spaced _ _ _ Hall Hfind)).
    exact Hall.
Qed.

Lemma turn_keeps_spaced (line : string) (b : bot) :
  hobbies_spaced (notes_book b) ->
  hobbies_spaced (notes_book (snd (turn today line b))).
Proof.
  intros Hall. unfold turn.
  destruct (parse_input line) as [[command_ args]|e] eqn:Hparse; [|exact Hall].
  assert (Hrun : hobbies_spaced
                   (notes_book (snd (execute_command today command_ args b)))).
  { destruct (in_dec String.string_dec command_ note_writers) as [Hin|Hout].
    - apply note_command_keeps_spaced; [exact Hin| |exact Hall].
      destruct (proj2 (parse_input_words line) _ _ Hparse)
        as [_ [_ [_ [_ Hwords]]]].
      apply Hwords; intros ->; simpl in Hin; intuition discriminate.
    - now rewrite (dispatch_leaves_notes today _ args b Hout). }
  now destruct (execute_command today command_ args b) as [[out|e] b'].
Qed.

(** X16.  Through the prompt a hobby can only be stored as two or more words
    joined by spaces, and a command takes its arguments word by word.  So,
    from notes whose hobbies all have a space in them (the empty book, or
    any book filled through the prompt): this stays so whatever lines are
    typed; find-hobby typed with its one argument finds no note; and
    update-hobby typed with its three arguments never changes the bot. *)
Theorem prompt_hobbies_are_never_found
  (inputs : list string) (line first hobby name_ new_hobby : string) (b : bot) :
  hobbies_spaced (notes_book b) ->
  hobbies_spaced (notes_book (snd (main today inputs b)))
  /\ (Py.split line = [first; hobby] ->
      Py.casefold first = "find-hobby" ->
      main today [line] b
      = (["Command was'find-hobby' executed, might have been successfully. Result is:"
          ++ Py.nl ++ "Found Notes: "],
         Prompting, b))
  /\ (Py.split line = [first; name_; hobby; new_hobby] ->
      Py.casefold first = "update-hobby" ->
      exists msg,
        main today [line] b
        = (["Command was'update-hobby' executed, might have been successfully. Result is:"
            ++ Py.nl ++ "Command 'update' failed: " ++ msg],
           Prompting, b)).
Proof.
  intros Hall. split; [|split].
  - revert b Hall. induction inputs as [|input later IH]; intros b Hall;
      [exact Hall|].
    cbn [main]. pose proof (turn_keeps_spaced input b Hall) as Hturn.
    destruct (turn today input b) as [[out|e] b1]; simpl in Hturn.
    + specialize (IH b1 Hturn).
      now destruct (main today later b1) as [[printed e] b2].
    + now destruct (class_of e).
  - intros Hsplit Hfirst.
    pose proof (split_from_words line "" eq_refl) as Hwords.
    unfold Py.split in Hsplit. rewrite Hsplit in Hwords.
    apply Forall_cons_iff in Hwords as [_ Hwords].
    apply Forall_cons_iff in Hwords as [[_ Hhobby] _].
    assert (Hparse : parse_input line = Return ("find-hobby", [hobby])).
    { unfold parse_input, Py.split. now rewrite Hsplit, Hfirst. }
    cbn [main]. unfold turn. rewrite Hparse. cbv beta iota.
    rewrite (dispatch_to_handler today "find-hobby" _ b _ eq_refl). simpl call.
    unfold find_hobby, input_error.
    now rewrite (find_hobby_word _ _ Hhobby Hall).
  - intros Hsplit Hfirst.
    pose proof (split_from_words line "" eq_refl) as Hwords.
    unfold Py.split in Hsplit. rewrite Hsplit in Hwords.
    apply Forall_cons_iff in Hwords as [_ Hwords].
    apply Forall_cons_iff in Hwords as [_ Hwords].
    apply Forall_cons_iff in Hwords as [[_ Hhobby] _].
    assert (Hparse : parse_input line
                     = Return ("update-hobby", [name_; hobby; new_hobby])).
    { unfold parse_input, Py.split. now rewrite Hsplit, Hfirst. }
    cbn [main]. unfold turn. rewrite Hparse. cbv beta iota.
    rewrite (dispatch_to_handler today "update-hobby" _ b _ eq_refl). simpl call.
    unfold update_hobby, input_error, bind, find_note_or, on_note, ret, raise,
      Note.edit_hobby.
    destruct (NotesBook.find (notes_book b) name_) as [note|] eqn:Hfind; simpl.
    + rewrite (word_not_among_spaced _ _ Hhobby
                 (found_note_spaced _ _ _ Hall Hfind)).
      simpl. eexists. reflexivity.
    + eexists. reflexivity.
Qed.

End Hobbies.

(** ** The properties above on the sample data model *)

Lemma execute_command_is_the_handler_witness :
  CliHelperBot.execute_command (D := Sample.datamodels) Sample.sunday
    "hello" ["there"] Sample.empty
  = CliHelperBot.say_hello ["there"] Sample.empty.
Proof.
  exact (execute_command_is_the_handler (D := Sample.datamodels) Sample.sunday
           "hello" ["there"] Sample.empty
           (CliHelperBot.def CliHelperBot.say_hello
              "Outputs a hello message for user.")
           eq_refl).
Defined.

Lemma execute_command_answers_witness :
  exists s b',
    CliHelperBot.execute_command (D := Sample.datamodels) Sample.sunday
      "add-birthday" ["bob"] Sample.empty
    = (Exn.Return s, b').
Proof.
  apply (execute_command_answers (D := Sample.datamodels) Sample.sunday
           "add-birthday" ["bob"] Sample.empty).
  simpl. intros [H|[H|[H|[]]]]; discriminate H.
Defined.

Lemma stop_always_raises_witness :
  exists e,
    CliHelperBot.execute_command (D := Sample.datamodels) Sample.sunday
      "exit" ["bye"] Sample.empty
    = (Exn.Raise e, Sample.empty)
    /\ Exn.caught (Exn.class_of e) = false
    /\ (forall message, ["bye"] = [message] ->
                        e = Exn.Build Exn.CliHelperSigStop message)
    /\ (List.length ["bye"] <> 1%nat -> Exn.class_of e = Exn.TypeError).
Proof.
  apply (stop_always_raises (D := Sample.datamodels) Sample.sunday
           "exit" ["bye"] Sample.empty).
  right. reflexivity.
Defined.

Lemma update_phone_replaces_first_phone_witness :
  let b := Sample.after Sample.sunday [("add", ["alice"; "1234567890"])] in
  CliHelperBot.execute_command (D := Sample.datamodels) Sample.sunday
    "update-phone" ["alice"; "0987654321"] b
  = (Exn.Return "Contact alice updated with phone: 0987654321.",
     CliHelperBot.mk [("alice", Rec.mk "alice" ["0987654321"] None None None)] []).
Proof.
  intros b.
  exact (update_phone_replaces_first_phone (D := Sample.datamodels) Sample.sunday
           "alice" "0987654321" "1234567890" [] b
           (Rec.mk "alice" ["1234567890"] None None None) eq_refl eq_refl).
Defined.

Lemma address_book_changed_by_contact_commands_only_witness :
  let b := Sample.after Sample.sunday [("add", ["alice"; "1234567890"])] in
  CliHelperBot.address_book
    (snd (CliHelperBot.execute_command (D := Sample.datamodels) Sample.sunday
            "add-note" ["alice"; "backend"] b))
  = CliHelperBot.address_book b.
Proof.
  intros b.
  apply (address_book_changed_by_contact_commands_only
           (D := Sample.datamodels) Sample.sunday "add-note" ["alice"; "backend"] b).
  simpl. intuition discriminate.
Defined.

Lemma notes_book_changed_by_note_commands_only_witness :
  let b := Sample.after Sample.sunday [("add-note", ["proj1"; "backend"])] in
  CliHelperBot.notes_book
    (snd (CliHelperBot.execute_command (D := Sample.datamodels) Sample.sunday
            "add" ["proj1"; "1234567890"] b))
  = CliHelperBot.notes_book b.
Proof.
  intros b.
  apply (notes_book_changed_by_note_commands_only
           (D := Sample.datamodels) Sample.sunday "add" ["proj1"; "1234567890"] b).
  simpl. intuition discriminate.
Defined.

Lemma names_changed_by_add_and_delete_contact_only_witness :
  let b := Sample.after Sample.sunday
             [("add", ["alice"; "1234567890"]); ("add", ["bob"; "5550001111"])] in
  AddressBook.get_all_names
    (CliHelperBot.address_book
       (snd (CliHelperBot.execute_command (D := Sample.datamodels) Sample.sunday
               "delete-phone" ["alice"; "1234567890"] b)))
  = ["alice"; "bob"].
Proof.
  intros b.
  apply (names_changed_by_add_and_delete_contact_only
           (D := Sample.datamodels) Sample.sunday
           "delete-phone" ["alice"; "1234567890"] b).
  simpl. intuition discriminate.
Defined.

Lemma execute_command_keeps_books_well_formed_witness :
  Behaviour.bot_well_formed
    (snd (CliHelperBot.execute_command (D := Sample.datamodels) Sample.sunday
            "add" ["alice"; "1234567890"] Sample.empty)).
Proof.
  apply (execute_command_keeps_books_well_formed (D := Sample.datamodels)
           Sample.sunday "add" ["alice"; "1234567890"] Sample.empty).
  repeat split; constructor.
Defined.

Lemma add_phone_delete_contact_round_trip_witness :
  let added :=
    CliHelperBot.mk [("alice", Rec.mk "alice" ["1234567890"] None None None)] [] in
  CliHelperBot.execute_command (D := Sample.datamodels) Sample.sunday
    "delete-contact" ["alice"] added
  = (Exn.Return "Contact alice removed from Address book.", Sample.empty).
Proof.
  exact (proj2 (proj2 (add_phone_delete_contact_round_trip
                         (D := Sample.datamodels) Sample.sunday
                         "alice" "1234567890" "1234567890" Sample.empty
                         eq_refl eq_refl))).
Defined.

Lemma add_find_delete_note_round_trip_witness :
  let added :=
    CliHelperBot.mk [] [("proj1", Note.mk "proj1" "backend" "" [])] in
  CliHelperBot.execute_command (D := Sample.datamodels) Sample.sunday
    "delete-note" ["proj1"] added
  = (Exn.Return "Note proj1 removed from Notes book.", Sample.empty).
Proof.
  exact (proj2 (proj2 (add_find_delete_note_round_trip
                         (D := Sample.datamodels) Sample.sunday
                         "proj1" "backend" Sample.empty eq_refl))).
Defined.

Lemma deleted_contact_is_gone_witness :
  let b := Sample.after Sample.sunday [("add", ["alice"; "1234567890"])] in
  CliHelperBot.execute_command (D := Sample.datamodels) Sample.sunday
    "phone" ["alice"] Sample.empty
  = (Exn.Return "Command 'phone' failed: user with username alice doesn't exist. Try another username.",
     Sample.empty).
Proof.
  intros b.
  refine (proj1 (proj2 (deleted_contact_is_gone (D := Sample.datamodels)
                          Sample.sunday "alice" b
                          (Rec.mk "alice" ["1234567890"] None None None)
                          _ eq_refl))).
  repeat constructor. simpl. tauto.
Defined.

Lemma parse_input_gives_words_witness :
  exists command_ args,
    CliHelperBot.parse_input "  ADD  alice 1234567890" = Exn.Return (command_, args).
Proof.
  exact (proj1 (parse_input_gives_words "  ADD  alice 1234567890") eq_refl).
Defined.

Lemma close_and_exit_end_main_witness :
  CliHelperBot.main (D := Sample.datamodels) Sample.sunday
    ["EXIT right now"; "add alice 1234567890"] Sample.empty
  = (["Command 'exit' received. Good buy!"], CliHelperBot.Break, Sample.empty).
Proof.
  exact (close_and_exit_end_main (D := Sample.datamodels) Sample.sunday
           "EXIT right now" "EXIT" ["right"; "now"] ["add alice 1234567890"]
           Sample.empty eq_refl (or_intror eq_refl)).
Defined.

Lemma prompt_hobbies_are_never_found_witness :
  let b := Sample.after Sample.sunday
             [("add-note", ["proj1"; "backend"]);
              ("add-hobby", ["proj1"; "table"; "tennis"])] in
  CliHelperBot.main (D := Sample.datamodels) Sample.sunday ["find-hobby tennis"] b
  = (["Command was'find-hobby' executed, might have been successfully. Result is:"
      ++ Py.nl ++ "Found Notes: "],
     CliHelperBot.Prompting, b).
Proof.
  intros b.
  refine (proj1 (proj2 (prompt_hobbies_are_never_found (D := Sample.datamodels)
                          Sample.sunday [] "find-hobby tennis" "find-hobby"
                          "tennis" "" "" b _))
            eq_refl eq_refl).
  repeat constructor.
Defined.

Lemma birthday_round_trip_witness :
  let b := Sample.after Sample.sunday [("add", ["alice"; "1234567890"])] in
  let dated :=
    CliHelperBot.mk
      [("alice", Rec.mk "alice" ["1234567890"]
                        (Some (Calendar.mkdate 1990 3 5)) None None)] [] in
  CliHelperBot.execute_command (D := Sample.datamodels) Sample.sunday
    "show-birthday" ["alice"] dated
  = (Exn.Return "User's alice birthday is: 1990.3.5", dated).
Proof.
  intros b dated.
  exact (proj1 (proj2 (birthday_round_trip (D := Sample.datamodels) Sample.sunday
                         "alice" "1990.03.05" b
                         (Rec.mk "alice" ["1234567890"] None None None)
                         eq_refl))).
Defined.

Lemma add_project_tasks_needs_two_words_witness :
  CliHelperBot.execute_command (D := Sample.datamodels) Sample.sunday
    "add-project-tasks" ["proj1"; "refactor"] Sample.empty
  = (Exn.Return ("Command 'add-project-tasks' failed: "
                 ++ "command expects an input of two arguments: name and project tasks string, separated by a space. "
                 ++ "Received: proj1 refactor"),
     Sample.empty).
Proof.
  refine (proj1 (add_project_tasks_needs_two_words (D := Sample.datamodels)
                   Sample.sunday ["proj1"; "refactor"] Sample.empty) _).
  simpl. lia.
Defined.
